(** * Service-worker initialisation of the blog: [assets/javascript/sw-init.js]

    A shallow embedding of the update / notification flow of the site
    initialisation script, together with the part of the JavaScript
    semantics its behaviour depends on: truthiness, property access on
    [undefined], [String.prototype.split], the [Number] conversion, binary64
    arithmetic and comparison, and run-to-completion promise resolution.

    Conventions.
    - A JavaScript number is a binary64 value, represented by [spec_float]
      with [prec = 53] and [emax = 1024]; all rounding goes through the
      round-to-nearest-even functions of [SpecFloat].
    - A JavaScript string is a [string]; each [ascii] stands for one code
      unit, so the model covers strings whose code units are below 256.
    - Message payloads are data as [JSON.parse] produces them (no functions,
      no symbols, no accessors), extended with [undefined]. *)

From Stdlib Require Import ZArith Bool Ascii String List Lia SpecFloat.
From stdpp Require Import gmap strings list.

Set Warnings "-register-all".
Open Scope Z_scope.

(* ===================================================================== *)
(** * JavaScript numbers *)
(* ===================================================================== *)

Module JSNumber.

Definition prec : Z := 53.
Definition emax : Z := 1024.

Definition number := spec_float.

Definition NaN : number := S754_nan.
Definition zero : number := S754_zero false.
Definition neg_zero : number := S754_zero true.
Definition Infinity : number := S754_infinity false.

(** The number nearest to an integer (ties to even). *)
Definition of_Z (z : Z) : number := binary_normalize prec emax z 0 false.

Definition one : number := of_Z 1.

(** [ToBoolean] on numbers: [NaN], [+0] and [-0] are falsy. *)
Definition truthy (n : number) : bool :=
  match n with
  | S754_nan | S754_zero _ => false
  | _ => true
  end.

Definition is_nan (n : number) : bool :=
  match n with S754_nan => true | _ => false end.

Definition is_zero (n : number) : bool :=
  match n with S754_zero _ => true | _ => false end.

(** The integer a number denotes, when it denotes one. *)
Definition integer_value (n : number) : option Z :=
  match n with
  | S754_zero _ => Some 0
  | S754_finite s m e =>
      let sign z := if s then - z else z in
      if 0 <=? e then Some (sign (Zpos m * 2 ^ e))
      else if Zpos m mod 2 ^ (- e) =? 0 then Some (sign (Zpos m / 2 ^ (- e)))
      else None
  | _ => None
  end.

(** [a <= b] and [a - b] on numbers. *)
Definition le (a b : number) : bool := SFleb a b.
Definition sub (a b : number) : number := SFsub prec emax a b.

(** The number nearest to [(-1)^neg * m * 10^e10]: what a decimal literal
    with digits [m] and decimal exponent [e10] denotes. A negative exponent
    is a division of two integers, rounded once. *)
Definition of_decimal (neg : bool) (m : Z) (e10 : Z) : number :=
  if m =? 0 then S754_zero neg
  else if 0 <=? e10 then
    binary_normalize prec emax ((if neg then Z.opp else id) (m * 10 ^ e10)) 0 false
  else
    let '(q, e, l) := SFdiv_core_binary prec emax m 0 (10 ^ (- e10)) 0 in
    binary_round_aux prec emax neg q e l.

End JSNumber.

Import JSNumber.

(* ===================================================================== *)
(** * Strings: [split], [includes] and the [Number] conversion *)
(* ===================================================================== *)

Module JSString.

Definition code (c : ascii) : Z := Z.of_N (N_of_ascii c).

Definition is_digit (c : ascii) : bool := (48 <=? code c) && (code c <=? 57).
Definition digit_val (c : ascii) : Z := code c - 48.

(** Digits of the bases [0x], [0o] and [0b]; [None] for any other
    character. *)
Definition hex_val (c : ascii) : option Z :=
  let n := code c in
  if (48 <=? n) && (n <=? 57) then Some (n - 48)
  else if (65 <=? n) && (n <=? 70) then Some (n - 55)
  else if (97 <=? n) && (n <=? 102) then Some (n - 87)
  else None.

Definition digit_in (base : Z) (c : ascii) : option Z :=
  match hex_val c with
  | Some d => if d <? base then Some d else None
  | None => None
  end.

(** White space and line terminators among the code units below 256:
    TAB, LF, VT, FF, CR, SP and NBSP. *)
Definition is_white_space (c : ascii) : bool :=
  let n := code c in
  ((9 <=? n) && (n <=? 13)) || (n =? 32) || (n =? 160).

Fixpoint drop_white_space (l : list ascii) : list ascii :=
  match l with
  | c :: l' => if is_white_space c then drop_white_space l' else l
  | [] => []
  end.

Definition trim (l : list ascii) : list ascii :=
  rev (drop_white_space (rev (drop_white_space l))).

(** The longest prefix of decimal digits, and what follows it. *)
Fixpoint span_digits (l : list ascii) : list ascii * list ascii :=
  match l with
  | c :: l' =>
      if is_digit c then let '(ds, r) := span_digits l' in (c :: ds, r)
      else ([], l)
  | [] => ([], [])
  end.

Definition decimal_value (ds : list ascii) : Z :=
  fold_left (fun acc c => 10 * acc + digit_val c) ds 0.

(** Value of a run of digits in [base]; [None] if a character is not a
    digit of that base. *)
Fixpoint radix_value (base : Z) (acc : Z) (l : list ascii) : option Z :=
  match l with
  | [] => Some acc
  | c :: l' =>
      match digit_in base c with
      | Some d => radix_value base (base * acc + d) l'
      | None => None
      end
  end.

Definition chars (s : string) : list ascii := list_ascii_of_string s.

(** [ExponentPart], or nothing: the text after the mantissa. *)
Definition parse_exponent (l : list ascii) : option Z :=
  match l with
  | [] => Some 0
  | c :: r =>
      if (code c =? 101) || (code c =? 69) then
        let '(neg, r') :=
          match r with
          | s :: r'' =>
              if code s =? 43 then (false, r'')
              else if code s =? 45 then (true, r'')
              else (false, r)
          | [] => (false, r)
          end in
        let '(ds, rest) := span_digits r' in
        match ds, rest with
        | _ :: _, [] => Some (if neg then - decimal_value ds else decimal_value ds)
        | _, _ => None
        end
      else None
  end.

(** [StrUnsignedDecimalLiteral]. *)
Definition parse_unsigned_decimal (neg : bool) (l : list ascii) : option number :=
  if decide (l = chars "Infinity") then Some (S754_infinity neg)
  else
    let '(ip, r1) := span_digits l in
    let '(fp, r2) :=
      match r1 with
      | c :: r => if code c =? 46 then span_digits r else ([], r1)
      | [] => ([], r1)
      end in
    match ip ++ fp with
    | [] => None
    | ds =>
        match parse_exponent r2 with
        | Some e => Some (of_decimal neg (decimal_value ds) (e - Z.of_nat (length fp)))
        | None => None
        end
    end.

(** [NonDecimalIntegerLiteral]: [0x], [0o] and [0b] prefixes, either case,
    at least one digit. *)
Definition parse_non_decimal (l : list ascii) : option number :=
  match l with
  | z :: p :: (_ :: _) as ds =>
      if code z =? 48 then
        let base :=
          if (code p =? 120) || (code p =? 88) then Some 16
          else if (code p =? 111) || (code p =? 79) then Some 8
          else if (code p =? 98) || (code p =? 66) then Some 2
          else None in
        match base with
        | Some b =>
            match radix_value b 0 ds with
            | Some v => Some (of_decimal false v 0)
            | None => None
            end
        | None => None
        end
      else None
  | _ => None
  end.

(** [StrNumericLiteral]: a signed decimal literal or an unsigned literal in
    another base. *)
Definition parse_numeric_literal (l : list ascii) : option number :=
  match parse_non_decimal l with
  | Some n => Some n
  | None =>
      match l with
      | s :: r =>
          if code s =? 43 then parse_unsigned_decimal false r
          else if code s =? 45 then parse_unsigned_decimal true r
          else parse_unsigned_decimal false l
      | [] => None
      end
  end.

(** [StringToNumber]: the empty string and white space are [+0], a numeric
    literal is its value, anything else is [NaN]. *)
Definition StringToNumber (s : string) : number :=
  match trim (chars s) with
  | [] => zero
  | t =>
      match parse_numeric_literal t with
      | Some n => n
      | None => NaN
      end
  end.

(** [s.split(sep)] for a separator of one character. *)
Fixpoint split (sep : ascii) (s : string) : list string :=
  match s with
  | EmptyString => [EmptyString]
  | String c s' =>
      if Ascii.eqb c sep then EmptyString :: split sep s'
      else
        match split sep s' with
        | h :: t => String c h :: t
        | [] => [String c EmptyString]
        end
  end.

(** [s.includes(needle)]. *)
Fixpoint includes (needle s : string) : bool :=
  String.prefix needle s ||
  match s with
  | EmptyString => false
  | String _ s' => includes needle s'
  end.

End JSString.

Import JSString.

(* ===================================================================== *)
(** * Values, exceptions and the conversions applied to payload data *)
(* ===================================================================== *)

Inductive value :=
| VUndefined
| VNull
| VBool (b : bool)
| VNumber (n : number)
| VString (s : string)
| VArray (elems : list value)
| VObject (props : gmap string value).

(** Every exception the modelled code can raise is a [TypeError]. *)
Inductive exn := TypeError.

Inductive completion (A : Type) :=
| Normal (a : A)
| Throw (e : exn).
Arguments Normal {A} a.
Arguments Throw {A} e.

#[global] Instance completion_ret : MRet completion := fun A a => Normal a.
#[global] Instance completion_bind : MBind completion := fun A B f m =>
  match m with
  | Normal a => f a
  | Throw e => Throw e
  end.

#[global] Instance completion_fmap : FMap completion := fun A B f m =>
  match m with
  | Normal a => Normal (f a)
  | Throw e => Throw e
  end.

(** [try { body } catch (error) { handler }]. *)
Definition try_catch {A} (body : completion A) (handler : exn -> completion A)
  : completion A :=
  match body with
  | Normal a => Normal a
  | Throw error => handler error
  end.

Module JS.

(** [ToBoolean]. *)
Definition truthy (v : value) : bool :=
  match v with
  | VUndefined | VNull => false
  | VBool b => b
  | VNumber n => JSNumber.truthy n
  | VString s => negb (String.eqb s "")
  | VArray _ | VObject _ => true
  end.

(** [a || b]. *)
Definition or (a b : value) : value := if truthy a then a else b.

(** [v.k] for the property names this script reads ([type], [payload],
    [oldMetadata], [newMetadata], [version], [buildTime]), none of which
    exists on a built-in prototype: reading from [undefined] or [null]
    throws, an object yields its own property, and every other read is
    [undefined]. *)
Definition get (v : value) (k : string) : completion value :=
  match v with
  | VUndefined | VNull => Throw TypeError
  | VObject props => Normal (default VUndefined (props !! k))
  | _ => Normal VUndefined
  end.

(** The receiver of [v.split(...)]. Only a string has a callable [split]:
    on a boolean, a number or an array the property is [undefined], and in
    an object of plain data it is at best a value that is not callable, so
    the call throws. *)
Definition split_receiver (v : value) : completion string :=
  match v with
  | VString s => Normal s
  | _ => Throw TypeError
  end.

(** [parts[i]]. *)
Definition index (parts : list string) (i : nat) : value :=
  match parts !! i with
  | Some s => VString s
  | None => VUndefined
  end.

(** Whether [ToString] throws. A plain object converts through
    [Object.prototype.toString] unless an own property shadows it; such a
    property holds data, which is not callable, and the fallback [valueOf]
    returns no primitive. An array joins the conversions of its elements,
    skipping [undefined] and [null]. *)
Fixpoint to_string_throws (v : value) : bool :=
  match v with
  | VObject props => bool_decide (is_Some (props !! "toString"))
  | VArray elems => existsb to_string_throws elems
  | _ => false
  end.

(** [ToNumber]. An array converts through its [join(',')]: the empty array
    is the empty string, a single element converts as its own string does
    (a number round-trips through its shortest decimal form, which loses
    only the sign of zero), and two or more elements leave a comma, which no
    numeric literal contains. *)
Fixpoint to_number (v : value) : completion number :=
  match v with
  | VUndefined => Normal NaN
  | VNull => Normal zero
  | VBool b => Normal (if b then one else zero)
  | VNumber n => Normal n
  | VString s => Normal (StringToNumber s)
  | VObject _ => if to_string_throws v then Throw TypeError else Normal NaN
  | VArray elems =>
      if existsb to_string_throws elems then Throw TypeError
      else
        match elems with
        | [] => Normal zero
        | [e] =>
            match e with
            | VUndefined | VNull => Normal zero
            | VBool _ | VObject _ => Normal NaN
            | VNumber n => Normal (if is_zero n then zero else n)
            | VString s => Normal (StringToNumber s)
            | VArray _ => to_number e
            end
        | _ => Normal NaN
        end
  end.

(** [Number(v)]. *)
Definition Number (v : value) : completion number := to_number v.

End JS.

(* ===================================================================== *)
(** * [processMetadata] *)
(* ===================================================================== *)

Record metadata := {
  oldVersion : string;
  oldMajorVersion : number;
  newVersion : string;
  newMajorVersion : number;
  timeSinceNewVersionDeployed : number;
}.

(** The two shapes of object [processMetadata] returns: the five fields, or
    [{error}]. *)
Inductive result :=
| Processed (m : metadata)
| Failed (error : exn).

(** The property names of the returned object. *)
Definition fields (r : result) : list string :=
  match r with
  | Processed _ =>
      ["oldVersion"; "oldMajorVersion"; "newVersion"; "newMajorVersion";
       "timeSinceNewVersionDeployed"]%string
  | Failed _ => ["error"]%string
  end.

(** [Number(version.split('.')[0])]. *)
Definition majorVersion (version : string) : completion number :=
  JS.Number (JS.index (split "." version) 0).

(** The body of the [try] block; [now] is what [Date.now()] returns. *)
Definition processMetadata_try (now : Z) (payload : value) : completion metadata :=
  oldMetadata ← JS.get payload "oldMetadata";
  newMetadata ← JS.get payload "newMetadata";
  oldVersion ← (fun v => JS.or v (VString "")) <$> JS.get oldMetadata "version";
  newVersion ← (fun v => JS.or v (VString "")) <$> JS.get newMetadata "version";
  oldVersion ← JS.split_receiver oldVersion;
  oldMajorVersion ← majorVersion oldVersion;
  newVersion ← JS.split_receiver newVersion;
  newMajorVersion ← majorVersion newVersion;
  buildTime ← JS.get newMetadata "buildTime";
  buildTime ← JS.to_number buildTime;
  let timeSinceNewVersionDeployed := JSNumber.sub (of_Z now) buildTime in
  Normal {|
    oldVersion := oldVersion;
    oldMajorVersion := oldMajorVersion;
    newVersion := newVersion;
    newMajorVersion := newMajorVersion;
    timeSinceNewVersionDeployed := timeSinceNewVersionDeployed;
  |}.

(** [processMetadata(payload = {})]. *)
Definition processMetadata (now : Z) (payload : value) : completion result :=
  let payload := match payload with VUndefined => VObject ∅ | _ => payload end in
  try_catch (Processed <$> processMetadata_try now payload)
            (fun error => Normal (Failed error)).

(* ===================================================================== *)
(** * Effects on the collaborators *)
(* ===================================================================== *)

(** An element of [urlsToCache]: a URL, or the pair [[url, {mode}]]. *)
Inductive cache_entry :=
| Url (url : string)
| UrlWithInit (url : string) (mode : string).

(** The messages this script posts to the worker. *)
Inductive sw_message :=
| GET_METADATA
| CACHE_URLS (urlsToCache : list cache_entry).

(** Calls into the analytics queue, the notification UI, the worker channel
    and the page. A callback is recorded as the effects it performs when it
    is invoked. *)
Inductive effect :=
| ga_send_event (eventCategory eventAction : string) (eventValue : number)
                (eventLabel : string)
| ga_set (fieldName : string) (fieldValue : value)
| messages_add (body action : string) (onAction onDismiss : list effect)
| wb_messageSW (message : sw_message)
| setTimeout (callback : list effect) (delay : Z)
| location_reload.

(** A listener run: the effects performed, in order, and how the run
    ended. *)
Record run (A : Type) := Run { effects : list effect; outcome : completion A }.
Arguments Run {A} effects outcome.
Arguments effects {A} r.
Arguments outcome {A} r.

#[global] Instance run_ret : MRet run := fun A a => Run [] (Normal a).
#[global] Instance run_bind : MBind run := fun A B f m =>
  match outcome m with
  | Normal a => Run (effects m ++ effects (f a)) (outcome (f a))
  | Throw e => Run (effects m) (Throw e)
  end.

Definition perform (e : effect) : run unit := Run [e] (Normal tt).
Definition eval {A} (c : completion A) : run A := Run [] c.

Definition is_ga_event (eventAction : string) (e : effect) : bool :=
  match e with
  | ga_send_event _ a _ _ => String.eqb a eventAction
  | _ => false
  end.

Definition is_notification (e : effect) : bool :=
  match e with messages_add _ _ _ _ => true | _ => false end.

Definition is_ga_set (fieldName : string) (e : effect) : bool :=
  match e with
  | ga_set f _ => String.eqb f fieldName
  | _ => false
  end.

Definition is_message (is_type : sw_message -> bool) (e : effect) : bool :=
  match e with wb_messageSW m => is_type m | _ => false end.

Definition is_GET_METADATA (m : sw_message) : bool :=
  match m with GET_METADATA => true | _ => false end.

Definition is_CACHE_URLS (m : sw_message) : bool :=
  match m with CACHE_URLS _ => true | _ => false end.

(* ===================================================================== *)
(** * The listeners of [sw-init.js] *)
(* ===================================================================== *)

(** What a destructured variable holds: the field of the object returned by
    [processMetadata], or [undefined] ([None]) when the object is
    [{error}]. *)
Definition destructured {A} (field : metadata -> A) (r : result) : option A :=
  match r with
  | Processed m => Some (field m)
  | Failed _ => None
  end.

Module Var.

(** Truthiness of a variable holding a number or [undefined]. *)
Definition truthy (v : option number) : bool :=
  match v with Some n => JSNumber.truthy n | None => false end.

(** [a <= b]; [undefined] converts to [NaN]. *)
Definition le (a b : option number) : bool :=
  JSNumber.le (default NaN a) (default NaN b).

(** [v || 0]. *)
Definition or_zero (v : option number) : number :=
  match v with
  | Some n => if JSNumber.truthy n then n else zero
  | None => zero
  end.

(** Truthiness of a variable holding a string or [undefined]. *)
Definition nonempty (v : option string) : bool :=
  match v with Some s => negb (String.eqb s "") | None => false end.

End Var.

(** [v === s] for a string literal [s]. *)
Definition strict_equals (v : value) (s : string) : bool :=
  match v with VString s' => String.eqb s' s | _ => false end.

Section SwInit.

(** [NULL_VALUE] and [dimensions.SITE_VERSION] of the analytics module, and
    [initialSWState] of the worker-state module. *)
Variable NULL_VALUE : string.
Variable SITE_VERSION : string.
Variable initialSWState : string.

Definition uncontrolled : bool := negb (String.eqb initialSWState "controlled").

(** ** [addSWUpdateListener] *)

(** The [eventLabel] expression of [sendEvent]. *)
Definition eventLabel (oldVersion newVersion : option string) : string :=
  match newVersion with
  | Some new =>
      if Var.nonempty newVersion then
        (match oldVersion with
         | Some old => if Var.nonempty oldVersion then old else NULL_VALUE
         | None => NULL_VALUE
         end) +:+ " => " +:+ new
      else NULL_VALUE
  | None => NULL_VALUE
  end.

(** [sendEvent(eventCategory, eventAction)], closed over the destructured
    result [r]. *)
Definition sendEvent (r : result) (eventCategory eventAction : string) : effect :=
  ga_send_event eventCategory eventAction
    (Var.or_zero (destructured timeSinceNewVersionDeployed r))
    (eventLabel (destructured oldVersion r) (destructured newVersion r)).

(** The request handed to [messages.add]. *)
Definition updateNotification (r : result) : effect :=
  messages_add "A newer version of this site is available." "Reload"
    [sendEvent r "Messages" "sw-update-reload"; setTimeout [location_reload] 0]
    [sendEvent r "Messages" "sw-update-dismiss"].

(** The value of [shouldNotifyUser] when it is tested. *)
Definition shouldNotifyUser (r : result) : bool :=
  let shouldNotifyUser := true in
  let shouldNotifyUser :=
    if Var.truthy (destructured newMajorVersion r)
       && Var.le (destructured newMajorVersion r) (destructured oldMajorVersion r)
    then false else shouldNotifyUser in
  let shouldNotifyUser :=
    if uncontrolled then false else shouldNotifyUser in
  shouldNotifyUser.

(** The ['message'] listener, run on the [data] of one message at time
    [now]. *)
Definition onUpdateMessage (now : Z) (data : value) : run unit :=
  type ← eval (JS.get data "type");
  if strict_equals type "UPDATE_AVAILABLE" then
    payload ← eval (JS.get data "payload");
    r ← eval (processMetadata now payload);
    perform (sendEvent r "Service Worker" "sw-update");;
    if shouldNotifyUser r then
      perform (updateNotification r);;
      perform (sendEvent r "Messages" "sw-update-notify")
    else mret tt
  else mret tt.

(** ** [addFirstInstalledListener] *)

(** One entry of [urlsToCache] for a resource named [url]. *)
Definition cacheEntry (url : string) : cache_entry :=
  if includes "google-analytics.com/analytics.js" url
  then UrlWithInit url "no-cors"
  else Url url.

(** The ['installed'] listener: [isUpdate] is [event.isUpdate], [href] is
    [location.href] and [resources] are the names of the entries of
    [performance.getEntriesByType('resource')]. *)
Definition onInstalled (isUpdate : value) (href : string) (resources : list string)
  : run unit :=
  if negb (JS.truthy isUpdate) then
    let urlsToCache := Url href :: map cacheEntry resources in
    perform (wb_messageSW (CACHE_URLS urlsToCache))
  else mret tt.

(** ** [setSiteVersionOrTimeout] *)

(** The promise the function awaits, the function suspended on it, and what
    has been done so far. [settled] is the value the promise was resolved
    with, [awaiting] tells that the function has not yet resumed, and
    [armed] is the delay of the pending timer. *)
Record pending := {
  settled : option value;
  awaiting : bool;
  armed : option Z;
  performed : list effect;
}.

(** [resolve(v)]: the first call settles the promise, later calls do
    nothing. *)
Definition resolve (v : value) (p : pending) : pending :=
  match settled p with
  | Some _ => p
  | None => {| settled := Some v; awaiting := awaiting p;
               armed := armed p; performed := performed p |}
  end.

(** The code after the [await]: destructure [version] from the settled
    value and set the dimension. It runs once, when the promise has settled;
    destructuring [undefined] or [null] rejects the function instead. *)
Definition resume (p : pending) : pending :=
  match settled p, awaiting p with
  | Some v, true =>
      match JS.get v "version" with
      | Normal version =>
          {| settled := settled p; awaiting := false; armed := armed p;
             performed := performed p ++ [ga_set SITE_VERSION version] |}
      | Throw _ =>
          {| settled := settled p; awaiting := false; armed := armed p;
             performed := performed p |}
      end
  | _, _ => p
  end.

Definition sentinel : value := VObject {[ "version" := VString NULL_VALUE ]}.

(** The call itself: the promise executor runs to its end, then the
    function resumes if the promise is already settled. *)
Definition setSiteVersionOrTimeout : pending :=
  let p := {| settled := None; awaiting := true; armed := None; performed := [] |} in
  let p := if uncontrolled then resolve sentinel p else p in
  let p := {| settled := settled p; awaiting := awaiting p; armed := armed p;
              performed := performed p ++ [wb_messageSW GET_METADATA] |} in
  let p := {| settled := settled p; awaiting := awaiting p; armed := Some 3000;
              performed := performed p |} in
  resume p.

(** What happens next: the worker's reply fulfils [wb.messageSW(...)], or
    the timer fires. *)
Inductive occurrence :=
| reply (v : value)
| timer_fired.

Definition step (p : pending) (o : occurrence) : pending :=
  match o with
  | reply v => resume (resolve v p)
  | timer_fired =>
      match armed p with
      | Some _ =>
          resume (resolve sentinel
                    {| settled := settled p; awaiting := awaiting p;
                       armed := None; performed := performed p |})
      | None => p
      end
  end.

Definition steps (p : pending) (os : list occurrence) : pending :=
  fold_left step os p.

(** The order of the two occurrences when the worker replies [delay]
    milliseconds after the call ([None]: it never does). *)
Definition schedule (answer : option (Z * value)) : list occurrence :=
  match answer with
  | None => [timer_fired]
  | Some (delay, v) =>
      match armed setSiteVersionOrTimeout with
      | Some timeout =>
          if delay <=? timeout then [reply v; timer_fired]
          else [timer_fired; reply v]
      | None => [reply v]
      end
  end.

End SwInit.

(* ===================================================================== *)
(** * Vocabulary of the statements *)
(* ===================================================================== *)

(** ** Strings *)

(** [seg] has no occurrence of the separator [sep]. *)
Fixpoint free_of (sep : ascii) (seg : string) : bool :=
  match seg with
  | EmptyString => true
  | String c seg' => negb (Ascii.eqb c sep) && free_of sep seg'
  end.

(** [seg] is the part of [s] before the first [sep]. *)
Definition first_segment (sep : ascii) (s seg : string) : Prop :=
  free_of sep seg = true /\
  (s = seg \/ exists rest, s = seg +:+ String sep rest).

(** [needle] occurs in [s]. *)
Definition occurs_in (needle s : string) : Prop :=
  exists pre post, s = pre +:+ needle +:+ post.

(** ** The numeric literals [Number] accepts

    The productions of [StrNumericLiteral], on the characters of a string
    from which surrounding white space has been removed. *)

Module Grammar.

Definition digits (l : list ascii) : Prop := Forall (fun c => is_digit c = true) l.

Definition blank (l : list ascii) : Prop :=
  Forall (fun c => is_white_space c = true) l.

Definition sign (l : list ascii) : Prop :=
  l = [] \/ l = chars "+" \/ l = chars "-".

Definition optional (P : list ascii -> Prop) (l : list ascii) : Prop :=
  l = [] \/ P l.

Inductive ExponentPart : list ascii -> Prop :=
| exponent_part c s ds :
    c = "e"%char \/ c = "E"%char -> sign s -> digits ds -> ds <> [] ->
    ExponentPart (c :: s ++ ds).

Inductive StrUnsignedDecimalLiteral : list ascii -> Prop :=
| unsigned_Infinity :
    StrUnsignedDecimalLiteral (chars "Infinity")
| unsigned_point ip fp e :
    digits ip -> ip <> [] -> digits fp -> optional ExponentPart e ->
    StrUnsignedDecimalLiteral (ip ++ "."%char :: fp ++ e)
| unsigned_fraction fp e :
    digits fp -> fp <> [] -> optional ExponentPart e ->
    StrUnsignedDecimalLiteral ("."%char :: fp ++ e)
| unsigned_integer ip e :
    digits ip -> ip <> [] -> optional ExponentPart e ->
    StrUnsignedDecimalLiteral (ip ++ e).

Definition radix_prefix (p : ascii) (base : Z) : Prop :=
  ((p = "x" \/ p = "X") /\ base = 16)%char \/
  ((p = "o" \/ p = "O") /\ base = 8)%char \/
  ((p = "b" \/ p = "B") /\ base = 2)%char.

Inductive StrNumericLiteral : list ascii -> Prop :=
| literal_decimal s u :
    sign s -> StrUnsignedDecimalLiteral u -> StrNumericLiteral (s ++ u)
| literal_radix p base ds :
    radix_prefix p base -> ds <> [] ->
    Forall (fun c => is_Some (digit_in base c)) ds ->
    StrNumericLiteral ("0"%char :: p :: ds).

End Grammar.

(** ** Payloads and messages *)

(** The payload has no own property [k]. *)
Definition missing (payload : value) (k : string) : Prop :=
  match payload with
  | VObject props => props !! k = None
  | _ => True
  end.

(** The build time the payload carries, as a number. *)
Definition built_at (payload : value) (buildTime : number) : Prop :=
  exists newMetadata v,
    JS.get payload "newMetadata" = Normal newMetadata /\
    JS.get newMetadata "buildTime" = Normal v /\
    JS.to_number v = Normal buildTime.

(** The version string the payload carries on one side, empty when there
    is none. *)
Definition version_in (payload : value) (side : string) (version : string) : Prop :=
  exists metadata v,
    JS.get payload side = Normal metadata /\
    JS.get metadata "version" = Normal v /\
    JS.or v (VString "") = VString version.

(** [data] is an [UPDATE_AVAILABLE] message carrying [payload]. *)
Definition UPDATE_AVAILABLE (data payload : value) : Prop :=
  JS.get data "type" = Normal (VString "UPDATE_AVAILABLE") /\
  JS.get data "payload" = Normal payload.

(** Sample messages. *)
Definition versionMetadata (version : string) (buildTime : number) : value :=
  VObject {[ "version" := VString version; "buildTime" := VNumber buildTime ]}.

Definition updatePayload (oldMetadata newMetadata : value) : value :=
  VObject {[ "oldMetadata" := oldMetadata; "newMetadata" := newMetadata ]}.

Definition updateMessage (payload : value) : value :=
  VObject {[ "type" := VString "UPDATE_AVAILABLE"; "payload" := payload ]}.

Definition sampleUpdate (old new : string) : value :=
  updateMessage (updatePayload (versionMetadata old (of_Z 1000))
                               (versionMetadata new (of_Z 2000))).

(** ** Effects of a given kind *)

Definition notifications (es : list effect) : list effect :=
  List.filter is_notification es.

Definition events (eventAction : string) (es : list effect) : list effect :=
  List.filter (is_ga_event eventAction) es.

Definition messages (is_type : sw_message -> bool) (es : list effect) : list effect :=
  List.filter (is_message is_type) es.

Definition dimension_sets (fieldName : string) (es : list effect) : list effect :=
  List.filter (is_ga_set fieldName) es.

(** The function has resumed: the promise is settled and the code after the
    [await] has run. *)
Definition resumed (p : pending) : Prop :=
  awaiting p = false /\ settled p <> None.

(* ===================================================================== *)
(** * The other lookups and listeners of [sw-init.js] *)
(* ===================================================================== *)

(** [String(v)] on payload data. The decimal form of a number is left to
    [number_to_string], which stands for [Number::toString]. An array is the
    join of its elements with commas, [undefined] and [null] contributing
    nothing; a plain object is "[object Object]", or a [TypeError] when an
    own property shadows [toString]. *)
Fixpoint to_string (number_to_string : number -> string) (v : value)
  : completion string :=
  match v with
  | VUndefined => Normal "undefined"%string
  | VNull => Normal "null"%string
  | VBool b => Normal (if b then "true" else "false")%string
  | VNumber n => Normal (number_to_string n)
  | VString s => Normal s
  | VObject props =>
      if bool_decide (is_Some (props !! "toString")) then Throw TypeError
      else Normal "[object Object]"%string
  | VArray elems =>
      (fix join (first : bool) (l : list value) : completion string :=
         match l with
         | [] => Normal EmptyString
         | e :: l' =>
             s ← match e with
                 | VUndefined | VNull => Normal EmptyString
                 | _ => to_string number_to_string e
                 end;
             rest ← join false l';
             Normal ((if first then "" else ",") +:+ s +:+ rest)%string
         end) true elems
  end.

Section NavigationCache.

(** [NULL_VALUE] and [dimensions.CACHE_HIT] of the analytics module,
    [initialSWState] of the worker-state module, and [Number::toString]. *)
Variable NULL_VALUE : string.
Variable CACHE_HIT : string.
Variable initialSWState : string.
Variable number_to_string : number -> string.

(** ** [setNavigationCacheOrTimeout] *)

(** The code after the [await]: destructure [cacheHit] from the settled
    value and set the dimension to [String(cacheHit)]. *)
Definition resumeNavigation (p : pending) : pending :=
  match settled p, awaiting p with
  | Some v, true =>
      match cacheHit ← JS.get v "cacheHit"; to_string number_to_string cacheHit with
      | Normal s =>
          {| settled := settled p; awaiting := false; armed := armed p;
             performed := performed p ++ [ga_set CACHE_HIT (VString s)] |}
      | Throw _ =>
          {| settled := settled p; awaiting := false; armed := armed p;
             performed := performed p |}
      end
  | _, _ => p
  end.

(** The call itself. The executor resolves with [{cacheHit: false}] on a
    page that was not controlled, adds the ['message'] listener and arms the
    timer in any case. *)
Definition setNavigationCacheOrTimeout : pending :=
  let p := {| settled := None; awaiting := true; armed := None; performed := [] |} in
  let p := if uncontrolled initialSWState
           then resolve (VObject {[ "cacheHit" := VBool false ]}) p else p in
  let p := {| settled := settled p; awaiting := awaiting p; armed := Some 3000;
              performed := performed p |} in
  resumeNavigation p.

(** The ['message'] listener added by the executor, on the [data] of one
    message. *)
Definition onNavigationMessage (data : value) (p : pending) : pending :=
  match JS.get data "type" with
  | Normal type =>
      if strict_equals type "NAVIGATION_REPORT" then
        match JS.get data "payload" with
        | Normal payload => resolve payload p
        | Throw _ => p
        end
      else p
  | Throw _ => p
  end.

(** What happens next: the worker posts a message, or the timer fires. *)
Inductive navigation_occurrence :=
| worker_message (data : value)
| navigation_timer_fired.

Definition navigation_step (p : pending) (o : navigation_occurrence) : pending :=
  match o with
  | worker_message data => resumeNavigation (onNavigationMessage data p)
  | navigation_timer_fired =>
      match armed p with
      | Some _ =>
          resumeNavigation
            (resolve (VObject {[ "cacheHit" := VString NULL_VALUE ]})
               {| settled := settled p; awaiting := awaiting p;
                  armed := None; performed := performed p |})
      | None => p
      end
  end.

Definition navigation_steps (p : pending) (os : list navigation_occurrence) : pending :=
  fold_left navigation_step os p.

End NavigationCache.

(** ** [addCacheUpdateListener] *)

(** What the listener does to the page and the analytics queue. *)
Inductive content_effect :=
| loadPage (updatedURL : value)
| ga_send_labelled (eventCategory eventAction : string) (eventLabel : value).

(** The ['message'] listener, on the [data] of one message: the effects it
    performs, or the exception it ends with before performing any. *)
Definition onCacheMessage (data : value) : completion (list content_effect) :=
  type ← JS.get data "type";
  if strict_equals type "CACHE_UPDATED" then
    payload ← JS.get data "payload";
    updatedURL ← JS.get payload "updatedURL";
    Normal [loadPage updatedURL;
            ga_send_labelled "Service Worker" "cache-update" updatedURL]
  else Normal [].

(* ===================================================================== *)
(** * The analytics module *)
(* ===================================================================== *)

Module Analytics.

Definition NULL_VALUE : string := "(not set)".

Record tracker := { name : string; trackingId : string }.

(** The array literal handed to [shuffleArray]. *)
Definition trackers : list tracker :=
  [ {| name := "t0"; trackingId := "UA-21292978-1" |};
    {| name := "testing"; trackingId := "UA-21292978-3" |} ].

(** The custom dimensions, in the order of the object literal. *)
Definition dimensions : list (string * string) :=
  [ ("BREAKPOINT", "dimension1"); ("RESOLUTION", "dimension2");
    ("ORIENTATION", "dimension3"); ("HIT_SOURCE", "dimension4");
    ("URL_QUERY_PARAMS", "dimension5"); ("METRIC_VALUE", "dimension6");
    ("CLIENT_ID", "dimension7"); ("SERVICE_WORKER_REPLAY", "dimension8");
    ("SERVICE_WORKER_STATUS", "dimension9"); ("NETWORK_STATUS", "dimension10");
    ("PAGELOAD_ID", "dimension11"); ("VISIBILITY_STATE", "dimension12");
    ("HIT_TYPE", "dimension13"); ("HIT_UUID", "dimension14");
    ("HIT_TIME", "dimension15"); ("TRACKING_VERSION", "dimension16") ]%string.

Definition metrics : list (string * string) :=
  [ ("PAGE_VISIBLE", "metric1"); ("PAGE_HIDDEN", "metric2") ]%string.

(** ** [shuffleArray] *)

(** [temp = array[i]; array[i] = array[j]; array[j] = temp], for indices
    within the array. The loop of [shuffleArray] uses no other index: [i] is
    below the length and [j] is at most [i]. *)
Definition swap {A} (i j : nat) (array : list A) : list A :=
  match array !! i, array !! j with
  | Some temp, Some other => <[j:=temp]> (<[i:=other]> array)
  | _, _ => array
  end.

(** The loop from index [i] down to 1. [draw i] is the value of
    [Math.floor(Math.random() * (i + 1))] in the iteration at index [i]. *)
Fixpoint shuffle_from {A} (draw : nat -> nat) (i : nat) (array : list A) : list A :=
  match i with
  | O => array
  | S i' => shuffle_from draw i' (swap i (draw i) array)
  end.

Definition shuffleArray {A} (draw : nat -> nat) (array : list A) : list A :=
  shuffle_from draw (length array - 1) array.

(** ** The trackers and the [ga] proxies *)

Definition ALL_TRACKERS (draw : nat -> nat) : list tracker :=
  shuffleArray draw trackers.

(** [/test/.test(name)]. *)
Definition is_test (t : tracker) : Prop := includes "test" (name t) = true.

#[global] Instance is_test_dec t : Decision (is_test t) :=
  decide (includes "test" (name t) = true).

Definition TEST_TRACKERS (draw : nat -> nat) : list tracker :=
  filter is_test (ALL_TRACKERS draw).

(** A call of [window.ga]: a command for a named tracker with its
    arguments, or a function to run once the library is ready, which hands
    the tracker of that name to the proxied function. *)
Inductive window_ga :=
| ga_command (command : string) (args : list value)
| ga_ready (tracker_name : string).

(** The first argument of a proxy: a command name or a function. *)
Inductive proxied :=
| command_name (command : string)
| command_function.

(** The function [createGaProxy(trackers)] returns, as the calls of
    [window.ga] it makes. *)
Definition createGaProxy (trackers : list tracker) (command : proxied)
    (args : list value) : list window_ga :=
  map (fun t =>
         match command with
         | command_function => ga_ready (name t)
         | command_name c => ga_command (name t +:+ "." +:+ c) args
         end) trackers.

Definition gaAll (draw : nat -> nat) := createGaProxy (ALL_TRACKERS draw).
Definition gaTest (draw : nat -> nat) := createGaProxy (TEST_TRACKERS draw).

(** ** [setDefaultDimensionValues] *)

Definition setDefaultDimensionValues (draw : nat -> nat) : list window_ga :=
  concat (map (fun d => gaAll draw (command_name "set")
                          [VString (snd d); VString NULL_VALUE])
              dimensions).

(** ** [getDefinitionIndex] *)

Definition all_digits (s : string) : bool :=
  match s with
  | EmptyString => false
  | _ => forallb is_digit (chars s)
  end.

(** [/\d+$/.exec(s)]: the match, which is the first suffix of [s] made of
    digits only, or [None] for [null]. *)
Fixpoint exec_digits_at_end (s : string) : option string :=
  match s with
  | EmptyString => None
  | String _ s' => if all_digits s then Some s else exec_digits_at_end s'
  end.

(** [+/\d+$/.exec(definition)[0]]. *)
Definition getDefinitionIndex (definition : string) : completion number :=
  match exec_digits_at_end definition with
  | Some matched => JS.to_number (VString matched)
  | None => Throw TypeError
  end.

End Analytics.

(** ** More vocabulary *)

(** The payload is one [processMetadata] can process: both metadata objects
    are there, each version is a string or is falsy, and the build time
    converts to a number. *)
Definition version_ok (metadata : value) : Prop :=
  exists v, JS.get metadata "version" = Normal v /\
            (JS.truthy v = false \/ exists s, v = VString s).

Definition well_formed (payload : value) : Prop :=
  exists oldMetadata newMetadata buildTime n,
    JS.get payload "oldMetadata" = Normal oldMetadata /\
    JS.get payload "newMetadata" = Normal newMetadata /\
    version_ok oldMetadata /\ version_ok newMetadata /\
    JS.get newMetadata "buildTime" = Normal buildTime /\
    JS.to_number buildTime = Normal n.

(** [seg] spells the integer [n] in decimal digits. *)
Definition spells (seg : string) (n : Z) : Prop :=
  seg <> EmptyString /\ Grammar.digits (chars seg) /\ decimal_value (chars seg) = n.

(** [data] is a [NAVIGATION_REPORT] message carrying [payload]. *)
Definition NAVIGATION_REPORT (data payload : value) : Prop :=
  JS.get data "type" = Normal (VString "NAVIGATION_REPORT") /\
  JS.get data "payload" = Normal payload.

(** [data] is a message of another type, or no message object at all. *)
Definition other_than (type : string) (data : value) : Prop :=
  match JS.get data "type" with
  | Normal t => strict_equals t type = false
  | Throw _ => True
  end.

(** [data] is a [CACHE_UPDATED] message carrying [payload]. *)
Definition CACHE_UPDATED (data payload : value) : Prop :=
  JS.get data "type" = Normal (VString "CACHE_UPDATED") /\
  JS.get data "payload" = Normal payload.

Definition loads (es : list content_effect) : list content_effect :=
  List.filter (fun e => match e with loadPage _ => true | _ => false end) es.

(** While the function waits the dimension has not been set; once it has
    resumed the dimension has been set at most once. *)
Definition set_once (fieldName : string) (p : pending) : Prop :=
  (awaiting p = true /\ settled p = None /\
   dimension_sets fieldName (performed p) = []) \/
  (resumed p /\ (length (dimension_sets fieldName (performed p)) <= 1)%nat).

(** The value and label of every event an effect sends, those its callbacks
    send when they are invoked included. *)
Fixpoint sent_events (e : effect) : list (number * string) :=
  match e with
  | ga_send_event _ _ eventValue eventLabel => [(eventValue, eventLabel)]
  | messages_add _ _ onAction onDismiss =>
      flat_map sent_events onAction ++ flat_map sent_events onDismiss
  | setTimeout callback _ => flat_map sent_events callback
  | _ => []
  end.

(** More sample messages, and a stand-in for [Number::toString]. *)
Definition sampleReport (payload : value) : value :=
  VObject {[ "type" := VString "NAVIGATION_REPORT"; "payload" := payload ]}.

Definition sampleCacheUpdate (payload : value) : value :=
  VObject {[ "type" := VString "CACHE_UPDATED"; "payload" := payload ]}.

Definition sample_number_to_string (n : number) : string :=
  if is_zero n then "0" else "NaN".

(** The last character of [s] is not a decimal digit, or [s] is empty. *)
Definition no_final_digit (s : string) : Prop :=
  match rev (chars s) with
  | c :: _ => is_digit c = false
  | [] => True
  end.

(* ===================================================================== *)
(** * Properties of the string functions *)
(* ===================================================================== *)

Section StringFacts.

Lemma split_nonempty sep s : split sep s <> [].
Proof.
  destruct s as [|c s]; simpl; [discriminate|].
  destruct (Ascii.eqb c sep); [discriminate|].
  destruct (split sep s); discriminate.
Qed.

Lemma split_free sep seg : free_of sep seg = true -> split sep seg = [seg].
Proof.
  induction seg as [|c seg IH]; simpl; intros H; [reflexivity|].
  apply andb_true_iff in H as [Hc Hseg].
  apply negb_true_iff in Hc. rewrite Hc, (IH Hseg). reflexivity.
Qed.

Lemma split_first sep seg rest :
  free_of sep seg = true ->
  exists parts, split sep (seg +:+ String sep rest) = seg :: parts.
Proof.
  induction seg as [|c seg IH]; simpl; intros H.
  - rewrite Ascii.eqb_refl. eauto.
  - apply andb_true_iff in H as [Hc Hseg].
    apply negb_true_iff in Hc. rewrite Hc.
    destruct (IH Hseg) as [parts ->]. eauto.
Qed.

Lemma split_index_0 sep s seg :
  first_segment sep s seg -> JS.index (split sep s) 0 = VString seg.
Proof.
  intros [Hfree [-> | [rest ->]]]; unfold JS.index.
  - rewrite (split_free _ _ Hfree). reflexivity.
  - destruct (split_first sep seg rest Hfree) as [parts ->]. reflexivity.
Qed.

(** Every string has a first segment. *)
Lemma first_segment_exists sep s : exists seg, first_segment sep s seg.
Proof.
  induction s as [|c s [seg [Hfree Hs]]].
  - exists EmptyString. split; [reflexivity | left; reflexivity].
  - destruct (Ascii.eqb c sep) eqn:Hc.
    + apply Ascii.eqb_eq in Hc as ->.
      exists EmptyString. split; [reflexivity | right; exists s; reflexivity].
    + exists (String c seg). split.
      * simpl. rewrite Hc, Hfree. reflexivity.
      * destruct Hs as [-> | [rest ->]]; [left | right; exists rest]; reflexivity.
Qed.

Lemma prefix_spec p s : String.prefix p s = true <-> exists post, s = p +:+ post.
Proof.
  revert s. induction p as [|c p IH]; intros s.
  - split; [intros _; exists s; reflexivity | intros _; destruct s; reflexivity].
  - destruct s as [|d s]; simpl.
    + split; [discriminate | intros [post H]; discriminate].
    + destruct (ascii_dec c d) as [-> | Hne].
      * rewrite IH. split; intros [post H]; exists post.
        -- rewrite H. reflexivity.
        -- change (String d s = String d (p +:+ post)) in H. congruence.
      * split; [discriminate | intros [post H]].
        change (String d s = String c (p +:+ post)) in H. congruence.
Qed.

Lemma includes_spec needle s : includes needle s = true <-> occurs_in needle s.
Proof.
  induction s as [|c s IH].
  - cbn [includes]. rewrite orb_false_r, prefix_spec. split.
    + intros [post H]. exists EmptyString, post. exact H.
    + intros [pre [post H]]. destruct pre; [exists post; exact H|discriminate].
  - cbn [includes]. rewrite orb_true_iff, prefix_spec, IH. split.
    + intros [[post H] | [pre [post H]]].
      * exists EmptyString, post. exact H.
      * exists (String c pre), post. rewrite H. reflexivity.
    + intros [pre [post H]]. destruct pre as [|d pre].
      * left. exists post. exact H.
      * right. exists pre, post.
        change (String c s = String d (pre +:+ needle +:+ post)) in H.
        congruence.
Qed.

End StringFacts.

(* ===================================================================== *)
(** * Properties of the [Number] conversion *)
(* ===================================================================== *)

Section NumberFacts.

Import Grammar.

Lemma code_inj c d : code c = code d -> c = d.
Proof.
  unfold code. intros H. apply N2Z.inj in H.
  rewrite <- (ascii_N_embedding c), <- (ascii_N_embedding d), H. reflexivity.
Qed.

Lemma code_eqb c (d : ascii) : (code c =? code d) = true -> c = d.
Proof. intros H. apply code_inj, Z.eqb_eq, H. Qed.

Lemma span_digits_spec l ds r :
  span_digits l = (ds, r) -> l = ds ++ r /\ digits ds.
Proof.
  revert ds r. induction l as [|c l IH]; simpl; intros ds r H.
  - injection H as <- <-. split; [reflexivity|constructor].
  - destruct (is_digit c) eqn:Hc.
    + destruct (span_digits l) as [ds' r'] eqn:Hl. injection H as <- <-.
      destruct (IH _ _ eq_refl) as [-> Hds]. split; [reflexivity|].
      constructor; assumption.
    + injection H as <- <-. split; [reflexivity|constructor].
Qed.

Lemma parse_exponent_spec l e :
  parse_exponent l = Some e -> optional ExponentPart l.
Proof.
  destruct l as [|c r]; [left; reflexivity|]. simpl. intros H. right.
  destruct ((code c =? 101) || (code c =? 69)) eqn:Hc; [|discriminate].
  assert (Hce : c = "e"%char \/ c = "E"%char).
  { apply orb_true_iff in Hc as [Hc|Hc]; [left|right]; apply code_eqb, Hc. }
  assert (Hs : exists s r', r = s ++ r' /\ sign s /\
     (let '(neg, r'') := match r with
          | s :: r'' =>
              if code s =? 43 then (false, r'')
              else if code s =? 45 then (true, r'')
              else (false, r)
          | [] => (false, r)
          end in r'' = r')).
  { destruct r as [|s r'']; [exists [], []; repeat split; left; reflexivity|].
    destruct (code s =? 43) eqn:Hp.
    { apply (code_eqb s "+"%char) in Hp as ->. exists (chars "+"), r''.
      repeat split. right; left; reflexivity. }
    destruct (code s =? 45) eqn:Hm.
    { apply (code_eqb s "-"%char) in Hm as ->. exists (chars "-"), r''.
      repeat split. right; right; reflexivity. }
    exists [], (s :: r''). repeat split. left; reflexivity. }
  destruct Hs as (s & r' & -> & Hsign & Hr').
  destruct (match s ++ r' with [] => _ | _ => _ end) as [neg r''].
  subst r''.
  destruct (span_digits r') as [ds rest] eqn:Hds.
  apply span_digits_spec in Hds as [-> Hds].
  destruct ds as [|d ds]; [discriminate|]. destruct rest; [|discriminate].
  rewrite app_nil_r. constructor; auto.
Qed.

Lemma parse_unsigned_decimal_spec neg l n :
  parse_unsigned_decimal neg l = Some n -> StrUnsignedDecimalLiteral l.
Proof.
  unfold parse_unsigned_decimal.
  destruct (decide (l = chars "Infinity")) as [-> | _]; [constructor|].
  destruct (span_digits l) as [ip r1] eqn:Hip.
  apply span_digits_spec in Hip as [-> Hip].
  assert (Hfrac :
    (exists fp r2, r1 = "."%char :: fp ++ r2 /\ digits fp /\
       match r1 with
       | c :: r => if code c =? 46 then span_digits r else ([], r1)
       | [] => ([], r1)
       end = (fp, r2)) \/
    match r1 with
    | c :: r => if code c =? 46 then span_digits r else ([], r1)
    | [] => ([], r1)
    end = ([], r1)).
  { destruct r1 as [|c r]; [right; reflexivity|].
    destruct (code c =? 46) eqn:Hc; [|right; reflexivity].
    apply (code_eqb c "."%char) in Hc as ->.
    destruct (span_digits r) as [fp r2] eqn:Hfp.
    apply span_digits_spec in Hfp as [-> Hfp].
    left. exists fp, r2. auto. }
  destruct Hfrac as [(fp & r2 & -> & Hfp & ->) | ->].
  - destruct (ip ++ fp) as [|d ds] eqn:Hds; [discriminate|].
    destruct (parse_exponent r2) as [e|] eqn:He; [|discriminate].
    apply parse_exponent_spec in He. intros _.
    destruct ip as [|i ip].
    + simpl in *. subst fp. apply unsigned_fraction; auto.
    + apply unsigned_point; auto.
  - rewrite app_nil_r.
    destruct ip as [|i ip]; [discriminate|].
    destruct (parse_exponent r1) as [e|] eqn:He; [|discriminate].
    apply parse_exponent_spec in He. intros _.
    apply unsigned_integer; auto.
Qed.

Lemma radix_value_spec base l : forall acc v,
  radix_value base acc l = Some v ->
  Forall (fun c => is_Some (digit_in base c)) l.
Proof.
  induction l as [|c l IH]; simpl; intros acc v H; [constructor|].
  destruct (digit_in base c) as [d|] eqn:Hd; [|discriminate].
  constructor; [rewrite Hd; eauto | eapply IH, H].
Qed.

Lemma parse_non_decimal_spec l n :
  parse_non_decimal l = Some n -> StrNumericLiteral l.
Proof.
  unfold parse_non_decimal.
  destruct l as [|z [|p [|d ds]]]; try discriminate.
  destruct (code z =? 48) eqn:Hz; [|discriminate].
  apply (code_eqb z "0"%char) in Hz as ->.
  destruct ((code p =? 120) || (code p =? 88)) eqn:Hx.
  { destruct (radix_value 16 0 (d :: ds)) as [v|] eqn:Hv; [|discriminate].
    intros _. apply (literal_radix p 16); [|discriminate|eapply radix_value_spec, Hv].
    left. split; [|reflexivity].
    apply orb_true_iff in Hx as [Hx|Hx]; [left|right]; apply code_eqb, Hx. }
  destruct ((code p =? 111) || (code p =? 79)) eqn:Ho.
  { destruct (radix_value 8 0 (d :: ds)) as [v|] eqn:Hv; [|discriminate].
    intros _. apply (literal_radix p 8); [|discriminate|eapply radix_value_spec, Hv].
    right; left. split; [|reflexivity].
    apply orb_true_iff in Ho as [Ho|Ho]; [left|right]; apply code_eqb, Ho. }
  destruct ((code p =? 98) || (code p =? 66)) eqn:Hb; [|discriminate].
  destruct (radix_value 2 0 (d :: ds)) as [v|] eqn:Hv; [|discriminate].
  intros _. apply (literal_radix p 2); [|discriminate|eapply radix_value_spec, Hv].
  right; right. split; [|reflexivity].
  apply orb_true_iff in Hb as [Hb|Hb]; [left|right]; apply code_eqb, Hb.
Qed.

(** Every string [Number] converts to a number other than through the
    empty case is a numeric literal of the grammar. *)
Lemma parse_numeric_literal_spec l n :
  parse_numeric_literal l = Some n -> StrNumericLiteral l.
Proof.
  unfold parse_numeric_literal.
  destruct (parse_non_decimal l) as [m|] eqn:Hnd.
  { intros _. eapply parse_non_decimal_spec, Hnd. }
  destruct l as [|s r]; [discriminate|].
  destruct (code s =? 43) eqn:Hp.
  { apply (code_eqb s "+"%char) in Hp as ->. intros H.
    apply (literal_decimal (chars "+") r); [right; left; reflexivity|].
    eapply parse_unsigned_decimal_spec, H. }
  destruct (code s =? 45) eqn:Hm.
  { apply (code_eqb s "-"%char) in Hm as ->. intros H.
    apply (literal_decimal (chars "-") r); [right; right; reflexivity|].
    eapply parse_unsigned_decimal_spec, H. }
  intros H. apply (literal_decimal [] (s :: r)); [left; reflexivity|].
  eapply parse_unsigned_decimal_spec, H.
Qed.

Lemma span_digits_app ds rest :
  digits ds ->
  match rest with c :: _ => is_digit c = false | [] => True end ->
  span_digits (ds ++ rest) = (ds, rest).
Proof.
  intros Hds Hrest. induction Hds as [|d ds Hd _ IH]; simpl.
  - destruct rest as [|c rest]; [reflexivity|]. simpl. rewrite Hrest. reflexivity.
  - rewrite Hd, IH. reflexivity.
Qed.

Lemma exponent_head e :
  optional ExponentPart e ->
  match e with
  | c :: _ => is_digit c = false /\ (code c =? 46) = false
  | [] => True
  end.
Proof.
  intros [-> | He]; [exact I|].
  destruct He as [c s ds [-> | ->] _ _ _]; split; reflexivity.
Qed.

Lemma parse_exponent_complete e :
  optional ExponentPart e -> exists v, parse_exponent e = Some v.
Proof.
  intros [-> | He]; [exists 0; reflexivity|].
  destruct He as [c s ds Hc Hs Hds Hne].
  unfold parse_exponent.
  replace ((code c =? 101) || (code c =? 69)) with true
    by (destruct Hc as [-> | ->]; reflexivity).
  assert (Hspan : span_digits ds = (ds, [])).
  { rewrite <- (app_nil_r ds) at 1. apply span_digits_app; [exact Hds|exact I]. }
  destruct Hs as [-> | [-> | ->]]; simpl.
  - destruct ds as [|d ds]; [congruence|].
    assert (Hd : is_digit d = true) by (inversion Hds; assumption).
    replace (code d =? 43) with false.
    2:{ unfold is_digit in Hd. symmetry. apply Z.eqb_neq. lia. }
    replace (code d =? 45) with false.
    2:{ unfold is_digit in Hd. symmetry. apply Z.eqb_neq. lia. }
    rewrite Hspan. eauto.
  - rewrite Hspan. destruct ds; [congruence|eauto].
  - rewrite Hspan. destruct ds; [congruence|eauto].
Qed.

Lemma parse_unsigned_decimal_complete neg u :
  StrUnsignedDecimalLiteral u -> exists n, parse_unsigned_decimal neg u = Some n.
Proof.
  intros Hu. unfold parse_unsigned_decimal.
  destruct (decide (u = chars "Infinity")) as [_ | Hinf]; [eauto|].
  destruct Hu as [|ip fp e Hip Hne Hfp He|fp e Hfp Hne He|ip e Hip Hne He].
  - congruence.
  - rewrite (span_digits_app ip _ Hip) by reflexivity. simpl.
    rewrite (span_digits_app fp e Hfp)
      by (pose proof (exponent_head e He) as H; destruct e; [exact I|apply H]).
    destruct (parse_exponent_complete e He) as [v ->].
    destruct ip; [congruence|]. simpl. eauto.
  - simpl.
    rewrite (span_digits_app fp e Hfp)
      by (pose proof (exponent_head e He) as H; destruct e; [exact I|apply H]).
    destruct (parse_exponent_complete e He) as [v ->].
    destruct fp; [congruence|]. simpl. eauto.
  - rewrite (span_digits_app ip e Hip)
      by (pose proof (exponent_head e He) as H; destruct e; [exact I|apply H]).
    replace (match e with
             | c :: r => if code c =? 46 then span_digits r else ([], e)
             | [] => ([], e)
             end) with (@nil ascii, e).
    2:{ pose proof (exponent_head e He) as H. destruct e as [|c r]; [reflexivity|].
        destruct H as [_ ->]. reflexivity. }
    rewrite app_nil_r.
    destruct (parse_exponent_complete e He) as [v ->].
    destruct ip; [congruence|]. eauto.
Qed.

Lemma unsigned_head u :
  StrUnsignedDecimalLiteral u ->
  match u with
  | c :: _ => (code c =? 43) = false /\ (code c =? 45) = false
  | [] => False
  end.
Proof.
  assert (Hdigit : forall d, is_digit d = true ->
            (code d =? 43) = false /\ (code d =? 45) = false).
  { intros d Hd. unfold is_digit in Hd. split; apply Z.eqb_neq; lia. }
  intros [|ip fp e Hip Hne _ _|fp e _ _ _|ip e Hip Hne _].
  - split; reflexivity.
  - destruct ip as [|d ip]; [congruence|]. apply Hdigit. inversion Hip; assumption.
  - split; reflexivity.
  - destruct ip as [|d ip]; [congruence|]. apply Hdigit. inversion Hip; assumption.
Qed.

Lemma radix_value_complete base l : forall acc,
  Forall (fun c => is_Some (digit_in base c)) l ->
  exists v, radix_value base acc l = Some v.
Proof.
  induction l as [|c l IH]; simpl; intros acc H; [eauto|].
  inversion H as [|? ? [d Hd] Hl]; subst. rewrite Hd. apply IH, Hl.
Qed.

(** Conversely, [Number] gives every numeric literal of the grammar a
    value. *)
Lemma parse_numeric_literal_complete l :
  StrNumericLiteral l -> exists n, parse_numeric_literal l = Some n.
Proof.
  intros Hl. unfold parse_numeric_literal.
  destruct (parse_non_decimal l) as [m|] eqn:Hnd; [eauto|].
  destruct Hl as [s u Hs Hu | p base ds Hp Hne Hds].
  - pose proof (unsigned_head u Hu) as Hhead.
    destruct Hs as [-> | [-> | ->]]; simpl.
    + destruct u as [|c u]; [contradiction|]. destruct Hhead as [-> ->].
      apply parse_unsigned_decimal_complete, Hu.
    + apply parse_unsigned_decimal_complete, Hu.
    + apply parse_unsigned_decimal_complete, Hu.
  - exfalso. unfold parse_non_decimal in Hnd.
    destruct ds as [|d ds]; [congruence|].
    change (code "0" =? 48) with true in Hnd.
    destruct (radix_value_complete base (d :: ds) 0 Hds) as [v Hv].
    destruct Hp as [[[-> | ->] ->] | [[[-> | ->] ->] | [[-> | ->] ->]]];
      simpl in Hnd; simpl in Hv; rewrite Hv in Hnd; discriminate.
Qed.

Lemma digit_not_white_space c : is_digit c = true -> is_white_space c = false.
Proof.
  unfold is_digit, is_white_space. intros H.
  apply andb_true_iff in H as [H1 H2]. apply Z.leb_le in H1, H2.
  repeat (apply orb_false_iff; split).
  - apply andb_false_iff. right. apply Z.leb_gt. lia.
  - apply Z.eqb_neq. lia.
  - apply Z.eqb_neq. lia.
Qed.

Lemma drop_white_space_blank l : blank l -> drop_white_space l = [].
Proof.
  induction 1 as [|c l' Hc _ IH]; simpl; [reflexivity|]. rewrite Hc. exact IH.
Qed.

Lemma drop_white_space_digits l : digits l -> drop_white_space l = l.
Proof.
  intros [|c l' Hc _]; simpl; [reflexivity|].
  rewrite (digit_not_white_space c Hc). reflexivity.
Qed.

Lemma trim_blank l : blank l -> trim l = [].
Proof. intros H. unfold trim. rewrite (drop_white_space_blank l H). reflexivity. Qed.

Lemma trim_digits l : digits l -> trim l = l.
Proof.
  intros H. unfold trim. rewrite (drop_white_space_digits l H).
  rewrite drop_white_space_digits; [apply rev_involutive|].
  apply Forall_rev, H.
Qed.

Lemma of_decimal_integer v : 0 <= v -> of_decimal false v 0 = of_Z v.
Proof.
  intros Hv. unfold of_decimal, of_Z.
  destruct (Z.eqb_spec v 0) as [-> | _]; [reflexivity|].
  simpl. unfold id. rewrite Z.mul_1_r. reflexivity.
Qed.

Lemma decimal_value_nonneg ds : digits ds -> 0 <= decimal_value ds.
Proof.
  unfold decimal_value.
  assert (H : forall acc, 0 <= acc -> digits ds ->
            0 <= fold_left (fun acc c => 10 * acc + digit_val c) ds acc).
  { induction ds as [|d ds IH]; simpl; intros acc Hacc Hds; [exact Hacc|].
    inversion Hds as [|? ? Hd Hds']; subst. apply IH; [|exact Hds'].
    unfold is_digit in Hd. apply andb_true_iff in Hd as [Hd _].
    apply Z.leb_le in Hd. unfold digit_val. lia. }
  apply H. lia.
Qed.

(** A non-empty run of decimal digits converts to the number nearest to the
    integer it spells. *)
Lemma parse_digits ds :
  digits ds -> ds <> [] ->
  parse_numeric_literal ds = Some (of_Z (decimal_value ds)).
Proof.
  intros Hds Hne. unfold parse_numeric_literal.
  assert (Hnd : parse_non_decimal ds = None).
  { unfold parse_non_decimal. destruct ds as [|z [|p [|d ds']]]; try reflexivity.
    destruct (code z =? 48); [|reflexivity].
    assert (Hp : is_digit p = true).
    { inversion Hds as [|? ? _ Hds']; inversion Hds'; assumption. }
    unfold is_digit in Hp. apply andb_true_iff in Hp as [Hp1 Hp2].
    apply Z.leb_le in Hp1, Hp2.
    repeat match goal with
    | |- context [code p =? ?k] =>
        replace (code p =? k) with false by (symmetry; apply Z.eqb_neq; lia)
    end.
    reflexivity. }
  rewrite Hnd. destruct ds as [|d ds]; [congruence|].
  assert (Hd : is_digit d = true) by (inversion Hds; assumption).
  assert (Hsign : (code d =? 43) = false /\ (code d =? 45) = false).
  { unfold is_digit in Hd. apply andb_true_iff in Hd as [Hd1 Hd2].
    apply Z.leb_le in Hd1, Hd2. split; apply Z.eqb_neq; lia. }
  destruct Hsign as [-> ->]. unfold parse_unsigned_decimal.
  destruct (decide (d :: ds = chars "Infinity")) as [Heq | _].
  { injection Heq as -> _. discriminate Hd. }
  replace (span_digits (d :: ds)) with (d :: ds, @nil ascii).
  2:{ symmetry. rewrite <- (app_nil_r (d :: ds)) at 1.
      apply span_digits_app; [exact Hds|exact I]. }
  cbn [parse_exponent length app]. rewrite app_nil_r.
  rewrite of_decimal_integer by (apply decimal_value_nonneg, Hds).
  reflexivity.
Qed.

Lemma chars_nonempty s : s <> EmptyString -> chars s <> [].
Proof. destruct s; [congruence|discriminate]. Qed.

Lemma StringToNumber_digits s :
  s <> EmptyString -> digits (chars s) ->
  StringToNumber s = of_Z (decimal_value (chars s)).
Proof.
  intros Hne Hds. unfold StringToNumber. rewrite (trim_digits _ Hds).
  pose proof (parse_digits _ Hds (chars_nonempty s Hne)) as Hp.
  destruct (chars s) as [|c t]; [discriminate Hp|].
  rewrite Hp. reflexivity.
Qed.

Lemma StringToNumber_blank s : blank (chars s) -> StringToNumber s = zero.
Proof. intros H. unfold StringToNumber. rewrite (trim_blank _ H). reflexivity. Qed.

Lemma StringToNumber_not_literal s :
  trim (chars s) <> [] -> ~ StrNumericLiteral (trim (chars s)) ->
  StringToNumber s = NaN.
Proof.
  intros Hne Hlit. unfold StringToNumber.
  destruct (trim (chars s)) as [|c t] eqn:E; [congruence|].
  destruct (parse_numeric_literal (c :: t)) as [n|] eqn:Hp; [|reflexivity].
  exfalso. apply Hlit. eapply parse_numeric_literal_spec, Hp.
Qed.

Lemma StringToNumber_literal s :
  StrNumericLiteral (trim (chars s)) ->
  exists n, parse_numeric_literal (trim (chars s)) = Some n /\ StringToNumber s = n.
Proof.
  intros Hlit. destruct (parse_numeric_literal_complete _ Hlit) as [n Hn].
  exists n. split; [exact Hn|]. unfold StringToNumber.
  destruct (trim (chars s)); [discriminate Hn|]. rewrite Hn. reflexivity.
Qed.

Lemma digits2_iter_xO p k :
  digits2_pos (Pos.iter xO p k) = (digits2_pos p + k)%positive.
Proof.
  induction k as [|k IH] using Pos.peano_ind.
  - simpl. lia.
  - rewrite Pos.iter_succ. simpl. rewrite IH. lia.
Qed.

Lemma iter_xO_value p k : Zpos (Pos.iter xO p k) = Zpos p * 2 ^ Zpos k.
Proof.
  induction k as [|k IH] using Pos.peano_ind.
  - simpl. lia.
  - rewrite Pos.iter_succ, Pos2Z.inj_xO, IH, Pos2Z.inj_succ, Z.pow_succ_r by lia. lia.
Qed.

Lemma binary_round_aux_canonical m e :
  Zpos (digits2_pos m) = prec -> -1074 <= e <= 971 ->
  binary_round_aux prec emax false (Zpos m) e loc_Exact = S754_finite false m e.
Proof.
  intros Hm He.
  assert (Hshr : shr_fexp prec emax (Zpos m) e loc_Exact =
                 (Build_shr_record (Zpos m) false false, e)).
  { unfold shr_fexp, shr_record_of_loc.
    replace (fexp prec emax (Zdigits2 (Zpos m) + e) - e) with 0; [reflexivity|].
    unfold fexp, SpecFloat.emin, Zdigits2. rewrite Hm. unfold prec, emax. lia. }
  unfold binary_round_aux. rewrite Hshr. cbn [shr_m loc_of_shr_record round_nearest_even].
  rewrite Hshr. cbn [shr_m].
  replace (e <=? emax - prec) with true; [reflexivity|].
  symmetry. apply Z.leb_le. unfold emax, prec. lia.
Qed.

Lemma digits2_lower_bound p : 2 ^ (Zpos (digits2_pos p) - 1) <= Zpos p.
Proof.
  assert (Hstep : forall d, 0 < d -> 2 ^ (Z.succ d - 1) = 2 * 2 ^ (d - 1)).
  { intros d Hd. replace (Z.succ d - 1) with (Z.succ (d - 1)) by lia.
    apply Z.pow_succ_r. lia. }
  induction p as [p IH|p IH|]; simpl digits2_pos.
  - rewrite Pos2Z.inj_succ, Hstep by lia.
    pose proof (Pos2Z.inj_xI p). lia.
  - rewrite Pos2Z.inj_succ, Hstep by lia.
    pose proof (Pos2Z.inj_xO p). lia.
  - simpl. lia.
Qed.

(** An integer below 2^53 converts to a number without rounding. *)
Lemma of_Z_exact z : 0 <= z < 2 ^ 53 -> integer_value (of_Z z) = Some z.
Proof.
  intros [Hz0 Hz]. destruct z as [|p|p]; [reflexivity| |lia].
  assert (Hd : Zpos (digits2_pos p) <= 53).
  { destruct (Z.le_gt_cases (Zpos (digits2_pos p)) 53) as [H|H]; [exact H|].
    pose proof (digits2_lower_bound p) as Hlow.
    assert (2 ^ 53 <= 2 ^ (Zpos (digits2_pos p) - 1))
      by (apply Z.pow_le_mono_r; lia).
    lia. }
  unfold of_Z, binary_normalize, binary_round.
  replace (fexp prec emax (Zpos (digits2_pos p) + 0))
    with (Zpos (digits2_pos p) - 53)
    by (unfold fexp, SpecFloat.emin, prec, emax; lia).
  unfold shl_align.
  destruct (Zpos (digits2_pos p) - 53 - 0) as [|k|k] eqn:Hk; [|lia|].
  - rewrite binary_round_aux_canonical by (unfold prec; lia).
    simpl. f_equal. lia.
  - rewrite binary_round_aux_canonical.
    2:{ rewrite digits2_iter_xO. unfold prec. lia. }
    2:{ lia. }
    unfold integer_value.
    replace (0 <=? Zpos (digits2_pos p) - 53) with false
      by (symmetry; apply Z.leb_gt; lia).
    replace (- (Zpos (digits2_pos p) - 53)) with (Zpos k) by lia.
    rewrite iter_xO_value.
    rewrite Z.mod_mul by (apply Z.pow_nonzero; lia).
    rewrite Z.eqb_refl, Z.div_mul by (apply Z.pow_nonzero; lia).
    reflexivity.
Qed.

End NumberFacts.

(* ===================================================================== *)
(** * Properties of [processMetadata] *)
(* ===================================================================== *)

Section ProcessMetadataFacts.

Lemma processMetadata_returns now payload :
  exists r, processMetadata now payload = Normal r.
Proof.
  unfold processMetadata, try_catch.
  destruct (Processed <$> processMetadata_try now _); eauto.
Qed.

Lemma get_missing payload k :
  missing payload k ->
  JS.get payload k = Throw TypeError \/ JS.get payload k = Normal VUndefined.
Proof.
  destruct payload; simpl; intros H; auto.
  rewrite H. auto.
Qed.

Lemma processMetadata_try_missing now payload :
  missing payload "oldMetadata" \/ missing payload "newMetadata" ->
  processMetadata_try now payload = Throw TypeError.
Proof.
  unfold processMetadata_try.
  intros [H | H]; apply get_missing in H as [H | H].
  - rewrite H. reflexivity.
  - rewrite H. simpl. destruct (JS.get payload "newMetadata") as [nm|[]]; reflexivity.
  - rewrite H. destruct (JS.get payload "oldMetadata") as [om|[]]; reflexivity.
  - rewrite H. destruct (JS.get payload "oldMetadata") as [om|[]]; simpl;
      [|reflexivity].
    destruct (JS.get om "version") as [ov|[]]; reflexivity.
Qed.

(** What a successful run read from the payload. *)
Lemma processMetadata_processed now payload m :
  processMetadata now payload = Normal (Processed m) ->
  exists om nm ovv nvv btv bt,
    JS.get payload "oldMetadata" = Normal om /\
    JS.get payload "newMetadata" = Normal nm /\
    JS.get om "version" = Normal ovv /\
    JS.get nm "version" = Normal nvv /\
    JS.or ovv (VString "") = VString (oldVersion m) /\
    JS.or nvv (VString "") = VString (newVersion m) /\
    majorVersion (oldVersion m) = Normal (oldMajorVersion m) /\
    majorVersion (newVersion m) = Normal (newMajorVersion m) /\
    JS.get nm "buildTime" = Normal btv /\
    JS.to_number btv = Normal bt /\
    timeSinceNewVersionDeployed m = JSNumber.sub (of_Z now) bt.
Proof.
  unfold processMetadata, try_catch. intros H.
  destruct (processMetadata_try now _) as [m'|e] eqn:Htry; simpl in H; [|discriminate].
  injection H as ->.
  assert (Hp : processMetadata_try now payload = Normal m).
  { destruct payload; exact Htry. }
  clear Htry. unfold processMetadata_try in Hp.
  destruct (JS.get payload "oldMetadata") as [om|[]] eqn:Hom; simpl in Hp; [|discriminate].
  destruct (JS.get payload "newMetadata") as [nm|[]] eqn:Hnm; simpl in Hp; [|discriminate].
  destruct (JS.get om "version") as [ovv|[]] eqn:Hov; simpl in Hp; [|discriminate].
  destruct (JS.get nm "version") as [nvv|[]] eqn:Hnv; simpl in Hp; [|discriminate].
  destruct (JS.or ovv (VString "")) as [| | | |ov| |] eqn:Hovs; try discriminate Hp.
  simpl in Hp.
  destruct (majorVersion ov) as [omaj|[]] eqn:Homaj; simpl in Hp; [|discriminate].
  destruct (JS.or nvv (VString "")) as [| | | |nv| |] eqn:Hnvs; try discriminate Hp.
  simpl in Hp.
  destruct (majorVersion nv) as [nmaj|[]] eqn:Hnmaj; simpl in Hp; [|discriminate].
  destruct (JS.get nm "buildTime") as [btv|[]] eqn:Hbtv; simpl in Hp; [|discriminate].
  destruct (JS.to_number btv) as [bt|[]] eqn:Hbt; simpl in Hp; [|discriminate].
  injection Hp as <-. simpl.
  exists om, nm, ovv, nvv, btv, bt. repeat split; assumption.
Qed.

(** The major version is the number the first segment converts to. *)
Lemma majorVersion_segment version seg :
  first_segment "." version seg ->
  majorVersion version = Normal (StringToNumber seg).
Proof.
  intros H. unfold majorVersion. rewrite (split_index_0 _ _ _ H). reflexivity.
Qed.

End ProcessMetadataFacts.

Section MajorVersionClaims.

Import Grammar.

(** C4, as amended. The major versions [processMetadata] returns are
    [Number] of the first dot-delimited segment of the version strings. A
    segment that is a non-empty run of decimal digits gives the number
    nearest to the integer it spells, which is that integer itself below
    2^53. A segment that is empty or only white space gives 0, not [NaN]. A
    segment that is another numeric literal of JavaScript (signed, with an
    exponent, in base 16, 8 or 2, [Infinity], or surrounded by white space)
    gives the value of that literal. Every other segment gives [NaN]. *)
Theorem major_version_is_number_of_first_segment :
  (forall now payload m,
      processMetadata now payload = Normal (Processed m) ->
      majorVersion (oldVersion m) = Normal (oldMajorVersion m) /\
      majorVersion (newVersion m) = Normal (newMajorVersion m)) /\
  (forall version seg,
      first_segment "." version seg ->
      (seg <> EmptyString -> digits (chars seg) ->
       majorVersion version = Normal (of_Z (decimal_value (chars seg))) /\
       (decimal_value (chars seg) < 2 ^ 53 ->
        integer_value (of_Z (decimal_value (chars seg))) =
          Some (decimal_value (chars seg)))) /\
      (blank (chars seg) -> majorVersion version = Normal zero) /\
      (StrNumericLiteral (trim (chars seg)) ->
       exists n, parse_numeric_literal (trim (chars seg)) = Some n /\
                 majorVersion version = Normal n) /\
      (trim (chars seg) <> [] -> ~ StrNumericLiteral (trim (chars seg)) ->
       majorVersion version = Normal NaN)).
Proof.
  split.
  - intros now payload m Hr.
    destruct (processMetadata_processed now payload m Hr)
      as (om & nm & ovv & nvv & btv & bt & _ & _ & _ & _ & _ & _ & Hold & Hnew & _).
    split; assumption.
  - intros version seg Hseg. rewrite (majorVersion_segment version seg Hseg).
    split; [|split; [|split]].
    + intros Hne Hds. rewrite (StringToNumber_digits seg Hne Hds).
      split; [reflexivity|]. intros Hlt. apply of_Z_exact.
      split; [apply decimal_value_nonneg, Hds|exact Hlt].
    + intros Hblank. rewrite (StringToNumber_blank seg Hblank). reflexivity.
    + intros Hlit. destruct (StringToNumber_literal seg Hlit) as (n & Hn & ->).
      eauto.
    + intros Hne Hlit. rewrite (StringToNumber_not_literal seg Hne Hlit).
      reflexivity.
Qed.

End MajorVersionClaims.

(* ===================================================================== *)
(** * Properties of the update listener *)
(* ===================================================================== *)

Lemma updateMessage_UPDATE_AVAILABLE payload :
  UPDATE_AVAILABLE (updateMessage payload) payload.
Proof. split; reflexivity. Qed.

Section UpdateListenerFacts.

Variable NULL_VALUE : string.
Variable initialSWState : string.

(** The effects of the listener on an [UPDATE_AVAILABLE] message. *)
Lemma onUpdateMessage_effects now data payload r :
  UPDATE_AVAILABLE data payload ->
  processMetadata now payload = Normal r ->
  effects (onUpdateMessage NULL_VALUE initialSWState now data) =
    sendEvent NULL_VALUE r "Service Worker" "sw-update" ::
    (if shouldNotifyUser initialSWState r
     then [updateNotification NULL_VALUE r;
           sendEvent NULL_VALUE r "Messages" "sw-update-notify"]
     else []).
Proof.
  intros [Htype Hpayload] Hr. unfold onUpdateMessage.
  rewrite Htype. simpl. rewrite Hpayload. simpl. rewrite Hr. simpl.
  destruct (shouldNotifyUser initialSWState r); reflexivity.
Qed.

(** Any other message, and a message the listener fails on, has no
    effect. *)
Lemma onUpdateMessage_notifications now data :
  notifications (effects (onUpdateMessage NULL_VALUE initialSWState now data)) <> [] ->
  exists payload r,
    UPDATE_AVAILABLE data payload /\
    processMetadata now payload = Normal r /\
    shouldNotifyUser initialSWState r = true.
Proof.
  unfold onUpdateMessage.
  destruct (JS.get data "type") as [type|[]] eqn:Htype; simpl; [|congruence].
  destruct (strict_equals type "UPDATE_AVAILABLE") eqn:Heq; simpl; [|congruence].
  destruct type as [| | | |s| |]; try discriminate Heq.
  apply String.eqb_eq in Heq as ->.
  destruct (JS.get data "payload") as [payload|[]] eqn:Hpayload; simpl; [|congruence].
  destruct (processMetadata_returns now payload) as [r Hr]. rewrite Hr. simpl.
  destruct (shouldNotifyUser initialSWState r) eqn:Hn; simpl; [|congruence].
  intros _. exists payload, r. repeat split; assumption.
Qed.

Lemma uncontrolled_spec :
  uncontrolled initialSWState = true <-> initialSWState <> "controlled".
Proof.
  unfold uncontrolled. rewrite negb_true_iff. split.
  - intros H ->. discriminate H.
  - intros H. apply String.eqb_neq. exact H.
Qed.

End UpdateListenerFacts.

Section UpdateListenerClaims.

Lemma shouldNotifyUser_uncontrolled st r :
  st <> "controlled" -> shouldNotifyUser st r = false.
Proof.
  intros H. apply uncontrolled_spec in H. unfold shouldNotifyUser. rewrite H.
  reflexivity.
Qed.

Lemma shouldNotifyUser_failed st error :
  shouldNotifyUser st (Failed error) = negb (uncontrolled st).
Proof. unfold shouldNotifyUser. simpl. destruct (uncontrolled st); reflexivity. Qed.

Lemma shouldNotifyUser_processed st m :
  shouldNotifyUser st (Processed m) =
    negb (JSNumber.truthy (newMajorVersion m)
          && JSNumber.le (newMajorVersion m) (oldMajorVersion m))
    && negb (uncontrolled st).
Proof.
  unfold shouldNotifyUser, Var.truthy, Var.le. simpl.
  destruct (_ && _), (uncontrolled st); reflexivity.
Qed.

Lemma processMetadata_sample now old new built_old built_new old_major new_major :
  majorVersion old = Normal old_major ->
  majorVersion new = Normal new_major ->
  processMetadata now
    (updatePayload (versionMetadata old built_old) (versionMetadata new built_new)) =
  Normal (Processed {|
    oldVersion := old; oldMajorVersion := old_major;
    newVersion := new; newMajorVersion := new_major;
    timeSinceNewVersionDeployed := JSNumber.sub (of_Z now) built_new |}).
Proof.
  intros Hold Hnew.
  unfold processMetadata, processMetadata_try, updatePayload.
  change (JS.get (VObject _) "oldMetadata") with (Normal (versionMetadata old built_old)).
  change (JS.get (VObject _) "newMetadata") with (Normal (versionMetadata new built_new)).
  cbn [mbind completion_bind].
  change (JS.get (versionMetadata old built_old) "version") with (Normal (VString old)).
  change (JS.get (versionMetadata new built_new) "version") with (Normal (VString new)).
  change (JS.get (versionMetadata new built_new) "buildTime")
    with (Normal (VNumber built_new)).
  cbn [fmap completion_fmap mbind completion_bind JS.to_number].
  assert (Hor : forall v, JS.split_receiver (JS.or (VString v) (VString "")) = Normal v).
  { intros v. unfold JS.or. simpl. destruct v; reflexivity. }
  rewrite !Hor. cbn [mbind completion_bind].
  rewrite Hold. cbn [mbind completion_bind].
  rewrite Hnew. reflexivity.
Qed.

(** Where the test of line 163 does what the comment above it says. When
    the payload is processed without error, the new major version is a
    number other than zero and it is less than or equal to the old major
    version, [shouldNotifyUser] is false and no notification is shown. From
    "3.2.1" to "3.5.0" the notification is suppressed; from "3.2.1" to
    "5.0.0", on a page that was controlled at load, it is shown. *)
Theorem same_major_update_is_not_notified :
  (forall NULL_VALUE initialSWState now data payload m,
      UPDATE_AVAILABLE data payload ->
      processMetadata now payload = Normal (Processed m) ->
      JSNumber.truthy (newMajorVersion m) = true ->
      JSNumber.le (newMajorVersion m) (oldMajorVersion m) = true ->
      shouldNotifyUser initialSWState (Processed m) = false /\
      notifications (effects (onUpdateMessage NULL_VALUE initialSWState now data)) = []) /\
  (forall NULL_VALUE initialSWState now built_old built_new,
      notifications (effects (onUpdateMessage NULL_VALUE initialSWState now
        (updateMessage (updatePayload (versionMetadata "3.2.1" built_old)
                                      (versionMetadata "3.5.0" built_new))))) = []) /\
  (forall NULL_VALUE now built_old built_new,
      exists r,
        processMetadata now (updatePayload (versionMetadata "3.2.1" built_old)
                                           (versionMetadata "5.0.0" built_new)) = Normal r /\
        notifications (effects (onUpdateMessage NULL_VALUE "controlled" now
          (updateMessage (updatePayload (versionMetadata "3.2.1" built_old)
                                        (versionMetadata "5.0.0" built_new))))) =
        [updateNotification NULL_VALUE r]).
Proof.
  split; [|split].
  - intros NULL st now data payload m Hdata Hr Htruthy Hle.
    assert (Hn : shouldNotifyUser st (Processed m) = false).
    { rewrite shouldNotifyUser_processed, Htruthy, Hle. reflexivity. }
    split; [exact Hn|].
    rewrite (onUpdateMessage_effects NULL st now data payload _ Hdata Hr), Hn.
    reflexivity.
  - intros NULL st now bo bn.
    erewrite onUpdateMessage_effects;
      [| apply updateMessage_UPDATE_AVAILABLE
       | apply processMetadata_sample; reflexivity].
    rewrite shouldNotifyUser_processed. reflexivity.
  - intros NULL now bo bn. eexists.
    split; [apply processMetadata_sample; reflexivity|].
    erewrite onUpdateMessage_effects;
      [| apply updateMessage_UPDATE_AVAILABLE
       | apply processMetadata_sample; reflexivity].
    reflexivity.
Qed.

(** C1: the code departs from the claim where the new major version is 0.
    From "0.2.0" to "0.5.0" both major versions are known, both are the
    number 0, and the new one is less than or equal to the old one, so
    there was no major version change and the comment above the test says
    the user is not notified. The test [newMajorVersion && ...] is falsy for
    0: [shouldNotifyUser] stays true and, on a page that was controlled at
    load, the notification is shown. *)
Theorem update_within_major_zero_is_notified NULL_VALUE now built_old built_new :
  exists m,
    processMetadata now (updatePayload (versionMetadata "0.2.0" built_old)
                                       (versionMetadata "0.5.0" built_new)) =
      Normal (Processed m) /\
    oldMajorVersion m = zero /\
    newMajorVersion m = zero /\
    JSNumber.le (newMajorVersion m) (oldMajorVersion m) = true /\
    shouldNotifyUser "controlled" (Processed m) = true /\
    notifications
      (effects (onUpdateMessage NULL_VALUE "controlled" now
         (updateMessage (updatePayload (versionMetadata "0.2.0" built_old)
                                       (versionMetadata "0.5.0" built_new))))) =
      [updateNotification NULL_VALUE (Processed m)].
Proof.
  eexists. split; [apply processMetadata_sample; reflexivity|].
  split; [reflexivity|]. split; [reflexivity|]. split; [reflexivity|].
  split; [reflexivity|].
  erewrite onUpdateMessage_effects;
    [| apply updateMessage_UPDATE_AVAILABLE
     | apply processMetadata_sample; reflexivity].
  reflexivity.
Qed.

(** C2, as amended. When [processMetadata] returns [{error}], the error
    itself never suppresses the prompt: [shouldNotifyUser] is true exactly
    when the page was controlled at load, and on such a page the
    notification is shown and the "sw-update-notify" event is sent. *)
Theorem malformed_update_is_notified_when_controlled
    NULL_VALUE now data payload error :
  UPDATE_AVAILABLE data payload ->
  processMetadata now payload = Normal (Failed error) ->
  (forall initialSWState,
      shouldNotifyUser initialSWState (Failed error) = negb (uncontrolled initialSWState)) /\
  notifications (effects (onUpdateMessage NULL_VALUE "controlled" now data)) =
    [updateNotification NULL_VALUE (Failed error)] /\
  events "sw-update-notify" (effects (onUpdateMessage NULL_VALUE "controlled" now data)) =
    [sendEvent NULL_VALUE (Failed error) "Messages" "sw-update-notify"].
Proof.
  intros Hdata Hr. split; [intros st; apply shouldNotifyUser_failed|].
  rewrite (onUpdateMessage_effects NULL_VALUE "controlled" now data payload _ Hdata Hr).
  split; reflexivity.
Qed.

(** C3. [processMetadata] returns normally on every payload, and when the
    payload has no [oldMetadata] or no [newMetadata] the returned object is
    [{error}]: it has the field [error] and none of the version fields. *)
Theorem processMetadata_never_throws :
  (forall now payload, exists r, processMetadata now payload = Normal r) /\
  (forall now payload,
      missing payload "oldMetadata" \/ missing payload "newMetadata" ->
      exists error,
        processMetadata now payload = Normal (Failed error) /\
        In "error"%string (fields (Failed error)) /\
        forall k,
          In k ["oldVersion"; "oldMajorVersion"; "newVersion"; "newMajorVersion";
                "timeSinceNewVersionDeployed"]%string ->
          ~ In k (fields (Failed error))).
Proof.
  split; [exact processMetadata_returns|].
  intros now payload Hmissing. exists TypeError. split; [|split].
  - unfold processMetadata.
    rewrite processMetadata_try_missing; [reflexivity|].
    destruct payload; try exact Hmissing.
    left. apply lookup_empty.
  - left. reflexivity.
  - intros k Hk [Herr|[]]. subst k. simpl in Hk.
    repeat (destruct Hk as [Hk|Hk]; [discriminate Hk|]). exact Hk.
Qed.

(** C5. On a page that was not controlled at load the listener never calls
    [messages.add] and never sends "sw-update-notify", whatever the message
    and whatever [processMetadata] makes of it. *)
Theorem uncontrolled_page_is_never_notified NULL_VALUE initialSWState now data :
  initialSWState <> "controlled" ->
  notifications (effects (onUpdateMessage NULL_VALUE initialSWState now data)) = [] /\
  events "sw-update-notify"
    (effects (onUpdateMessage NULL_VALUE initialSWState now data)) = [].
Proof.
  intros Hst. unfold onUpdateMessage.
  destruct (JS.get data "type") as [type|[]]; simpl; [|split; reflexivity].
  destruct (strict_equals type "UPDATE_AVAILABLE"); simpl; [|split; reflexivity].
  destruct (JS.get data "payload") as [payload|[]]; simpl; [|split; reflexivity].
  destruct (processMetadata_returns now payload) as [r ->]. simpl.
  rewrite (shouldNotifyUser_uncontrolled _ r Hst). split; reflexivity.
Qed.

End UpdateListenerClaims.

(* ===================================================================== *)
(** * Properties of the installed listener *)
(* ===================================================================== *)

(** C9. An 'installed' event with [isUpdate] true (or any truthy value)
    sends nothing to the worker; with [isUpdate] false the listener sends
    exactly one [CACHE_URLS] message. *)
Theorem update_install_sends_no_CACHE_URLS :
  (forall href resources,
      effects (onInstalled (VBool true) href resources) = []) /\
  (forall isUpdate href resources,
      JS.truthy isUpdate = true ->
      messages is_CACHE_URLS (effects (onInstalled isUpdate href resources)) = []) /\
  (forall href resources,
      exists urlsToCache,
        messages is_CACHE_URLS (effects (onInstalled (VBool false) href resources)) =
          [wb_messageSW (CACHE_URLS urlsToCache)]).
Proof.
  split; [|split].
  - reflexivity.
  - intros isUpdate href resources H. unfold onInstalled. rewrite H. reflexivity.
  - intros href resources. eexists. reflexivity.
Qed.

(** C10. On a first install the listener sends one [CACHE_URLS] message.
    Its list starts with [location.href] and continues with one entry per
    resource, in order: the pair of the URL and [{mode: 'no-cors'}] when the
    URL contains 'google-analytics.com/analytics.js', the bare URL
    otherwise. *)
Theorem first_install_caches_page_and_resources href resources :
  exists urlsToCache,
    effects (onInstalled (VBool false) href resources) =
      [wb_messageSW (CACHE_URLS urlsToCache)] /\
    urlsToCache !! 0%nat = Some (Url href) /\
    length urlsToCache = S (length resources) /\
    forall (i : nat) url,
      resources !! i = Some url ->
      (occurs_in "google-analytics.com/analytics.js" url ->
       urlsToCache !! S i = Some (UrlWithInit url "no-cors")) /\
      (~ occurs_in "google-analytics.com/analytics.js" url ->
       urlsToCache !! S i = Some (Url url)).
Proof.
  exists (Url href :: map cacheEntry resources).
  split; [reflexivity|]. split; [reflexivity|].
  split; [simpl; rewrite length_map; reflexivity|].
  intros i url Hi.
  assert (Hentry : (Url href :: map cacheEntry resources) !! S i = Some (cacheEntry url)).
  { change ((cacheEntry <$> resources) !! i = Some (cacheEntry url)).
    rewrite list_lookup_fmap, Hi. reflexivity. }
  rewrite Hentry. unfold cacheEntry.
  destruct (includes _ url) eqn:Hinc.
  - apply includes_spec in Hinc. split; [reflexivity|contradiction].
  - split; [|reflexivity].
    intros Hocc. apply includes_spec in Hocc. congruence.
Qed.

(* ===================================================================== *)
(** * Properties of [setSiteVersionOrTimeout] *)
(* ===================================================================== *)

Section SiteVersionFacts.

Variable NULL_VALUE : string.
Variable SITE_VERSION : string.
Variable initialSWState : string.

Local Abbreviation start :=
  (setSiteVersionOrTimeout NULL_VALUE SITE_VERSION initialSWState).
Local Abbreviation next := (step NULL_VALUE SITE_VERSION).
Local Abbreviation after := (steps NULL_VALUE SITE_VERSION).

Lemma get_sentinel_version :
  JS.get (sentinel NULL_VALUE) "version" = Normal (VString NULL_VALUE).
Proof. unfold sentinel, JS.get. rewrite lookup_singleton_eq. reflexivity. Qed.

Lemma resolve_settled v p : settled p <> None -> resolve v p = p.
Proof. unfold resolve. destruct (settled p); [reflexivity|congruence]. Qed.

Lemma resume_resumed p : awaiting p = false -> resume SITE_VERSION p = p.
Proof. unfold resume. intros ->. destruct (settled p); reflexivity. Qed.

Lemma step_resumed p o :
  resumed p -> resumed (next p o) /\ performed (next p o) = performed p.
Proof.
  intros [Ha Hs]. destruct o as [v|]; simpl.
  - rewrite (resolve_settled v p Hs), (resume_resumed p Ha). repeat split; assumption.
  - destruct (armed p); [|repeat split; assumption].
    rewrite resolve_settled by exact Hs. rewrite resume_resumed by exact Ha.
    repeat split; assumption.
Qed.

Lemma steps_resumed os : forall p,
  resumed p -> performed (after p os) = performed p.
Proof.
  induction os as [|o os IH]; intros p Hp; [reflexivity|].
  destruct (step_resumed p o Hp) as [Hp' Hperf].
  unfold steps in *. simpl. rewrite (IH _ Hp'). exact Hperf.
Qed.

Lemma start_uncontrolled :
  initialSWState <> "controlled" ->
  start = {| settled := Some (sentinel NULL_VALUE); awaiting := false;
             armed := Some 3000;
             performed := [wb_messageSW GET_METADATA;
                           ga_set SITE_VERSION (VString NULL_VALUE)] |}.
Proof.
  intros H. apply uncontrolled_spec in H.
  unfold setSiteVersionOrTimeout. rewrite H. unfold resolve, resume.
  cbn [settled awaiting armed performed app].
  rewrite get_sentinel_version. reflexivity.
Qed.

Lemma start_controlled :
  initialSWState = "controlled" ->
  start = {| settled := None; awaiting := true; armed := Some 3000;
             performed := [wb_messageSW GET_METADATA] |}.
Proof. intros ->. reflexivity. Qed.

(** Once the timer has fired the dimension has been set to the sentinel,
    and the function has resumed. *)
Lemma timer_fired_first :
  resumed (next start timer_fired) /\
  performed (next start timer_fired) =
    [wb_messageSW GET_METADATA; ga_set SITE_VERSION (VString NULL_VALUE)].
Proof.
  destruct (String.eqb_spec initialSWState "controlled") as [Hc|Hu].
  - rewrite (start_controlled Hc). unfold step, resolve, resume.
    cbn [settled awaiting armed performed app].
    rewrite get_sentinel_version. repeat split. discriminate.
  - rewrite (start_uncontrolled Hu). unfold step, resolve, resume.
    cbn [settled awaiting armed performed app].
    repeat split. discriminate.
Qed.

End SiteVersionFacts.

(** C7, as amended. On a page that was not controlled at load the promise
    is resolved with the sentinel at once: the dimension is set to
    [NULL_VALUE] before any reply or timer, and nothing that happens later
    changes what has been done. The [GET_METADATA] message is sent all the
    same and the 3000 ms timer is armed; their results are discarded. *)
Theorem uncontrolled_page_resolves_at_once NULL_VALUE SITE_VERSION initialSWState :
  initialSWState <> "controlled" ->
  let p := setSiteVersionOrTimeout NULL_VALUE SITE_VERSION initialSWState in
  settled p = Some (sentinel NULL_VALUE) /\
  awaiting p = false /\
  armed p = Some 3000 /\
  performed p = [wb_messageSW GET_METADATA; ga_set SITE_VERSION (VString NULL_VALUE)] /\
  forall os, performed (steps NULL_VALUE SITE_VERSION p os) = performed p.
Proof.
  intros H p. subst p. rewrite (start_uncontrolled _ _ _ H). simpl.
  repeat split. intros os. apply steps_resumed. split; [reflexivity|discriminate].
Qed.

(** C8. When the worker never replies, or replies more than 3000 ms after
    the call, the site-version dimension is set exactly once, to the
    sentinel; neither the late reply nor anything after it sets it again. *)
Theorem late_reply_is_discarded NULL_VALUE SITE_VERSION initialSWState answer later :
  (answer = None \/ exists delay v, answer = Some (delay, v) /\ 3000 < delay) ->
  dimension_sets SITE_VERSION
    (performed
       (steps NULL_VALUE SITE_VERSION
          (setSiteVersionOrTimeout NULL_VALUE SITE_VERSION initialSWState)
          (schedule NULL_VALUE SITE_VERSION initialSWState answer ++ later))) =
    [ga_set SITE_VERSION (VString NULL_VALUE)].
Proof.
  intros Hanswer.
  assert (Hschedule : exists os,
    schedule NULL_VALUE SITE_VERSION initialSWState answer = timer_fired :: os).
  { destruct Hanswer as [-> | (delay & v & -> & Hlate)].
    - exists []. reflexivity.
    - exists [reply v]. unfold schedule.
      replace (armed _) with (Some 3000).
      + destruct (Z.leb_spec delay 3000); [lia|reflexivity].
      + destruct (String.eqb_spec initialSWState "controlled") as [Hc|Hu].
        * rewrite (start_controlled _ _ _ Hc). reflexivity.
        * rewrite (start_uncontrolled _ _ _ Hu). reflexivity. }
  destruct Hschedule as [os ->].
  destruct (timer_fired_first NULL_VALUE SITE_VERSION initialSWState) as [Hres Hperf].
  change (steps NULL_VALUE SITE_VERSION ?p ((timer_fired :: os) ++ later))
    with (steps NULL_VALUE SITE_VERSION (step NULL_VALUE SITE_VERSION p timer_fired)
            (os ++ later)).
  rewrite (steps_resumed _ _ _ _ Hres), Hperf.
  unfold dimension_sets. simpl. rewrite String.eqb_refl. reflexivity.
Qed.

(* ===================================================================== *)
(** * The statements at concrete inputs *)
(* ===================================================================== *)

(** The scenarios of a controlled page: from "4.1.0" to "4.2.0" one
    "sw-update" event and nothing else; from "4.1.0" to "5.0.0" the event,
    the notification and "sw-update-notify". *)
Example scenario_minor_update :
  effects (onUpdateMessage "(not set)" "controlled" 5000 (sampleUpdate "4.1.0" "4.2.0")) =
    [ga_send_event "Service Worker" "sw-update" (of_Z 3000) "4.1.0 => 4.2.0"].
Proof. vm_compute. reflexivity. Qed.

Example scenario_major_update :
  map (fun e => match e with
                | ga_send_event _ a _ _ => a
                | messages_add _ a _ _ => a
                | _ => EmptyString
                end)
      (effects (onUpdateMessage "(not set)" "controlled" 5000
                  (sampleUpdate "4.1.0" "5.0.0"))) =
    ["sw-update"; "Reload"; "sw-update-notify"]%string.
Proof. vm_compute. reflexivity. Qed.

Lemma same_major_update_witness :
  UPDATE_AVAILABLE (sampleUpdate "3.2.1" "3.5.0")
    (updatePayload (versionMetadata "3.2.1" (of_Z 1000))
                   (versionMetadata "3.5.0" (of_Z 2000))) /\
  notifications
    (effects (onUpdateMessage "(not set)" "controlled" 5000
                (sampleUpdate "3.2.1" "3.5.0"))) = [].
Proof.
  split; [split; reflexivity|].
  eapply (proj1 same_major_update_is_not_notified
            "(not set)"%string "controlled"%string 5000 (sampleUpdate "3.2.1" "3.5.0")
            (updatePayload (versionMetadata "3.2.1" (of_Z 1000))
                           (versionMetadata "3.5.0" (of_Z 2000)))
            {| oldVersion := "3.2.1"; oldMajorVersion := of_Z 3;
               newVersion := "3.5.0"; newMajorVersion := of_Z 3;
               timeSinceNewVersionDeployed := of_Z 3000 |}).
  - split; reflexivity.
  - vm_compute. reflexivity.
  - reflexivity.
  - reflexivity.
Defined.

(** The code does not suppress every update whose new major version is
    known and at most the old one: from "0.2.0" to "0.5.0" both major
    versions are the number 0 and 0 <= 0, yet on a controlled page the
    notification is shown, because a new major version of 0 is falsy. *)
Lemma zero_major_update_is_notified :
  ~ (forall NULL_VALUE initialSWState now data payload m,
        UPDATE_AVAILABLE data payload ->
        processMetadata now payload = Normal (Processed m) ->
        is_nan (oldMajorVersion m) = false ->
        is_nan (newMajorVersion m) = false ->
        JSNumber.le (newMajorVersion m) (oldMajorVersion m) = true ->
        notifications (effects (onUpdateMessage NULL_VALUE initialSWState now data)) = []).
Proof.
  intros H.
  specialize (H "(not set)"%string "controlled"%string 5000 (sampleUpdate "0.2.0" "0.5.0")
                (updatePayload (versionMetadata "0.2.0" (of_Z 1000))
                               (versionMetadata "0.5.0" (of_Z 2000)))
                {| oldVersion := "0.2.0"; oldMajorVersion := zero;
                   newVersion := "0.5.0"; newMajorVersion := zero;
                   timeSinceNewVersionDeployed := of_Z 3000 |}).
  assert (Hnone : notifications
            (effects (onUpdateMessage "(not set)" "controlled" 5000
                        (sampleUpdate "0.2.0" "0.5.0"))) = []).
  { apply H; [split; reflexivity | reflexivity ..]. }
  vm_compute in Hnone. discriminate Hnone.
Qed.

Lemma malformed_update_witness :
  UPDATE_AVAILABLE (updateMessage VNull) VNull /\
  processMetadata 5000 VNull = Normal (Failed TypeError) /\
  notifications (effects (onUpdateMessage "(not set)" "controlled" 5000 (updateMessage VNull))) =
    [updateNotification "(not set)" (Failed TypeError)].
Proof.
  split; [split; reflexivity|]. split; [reflexivity|].
  apply (malformed_update_is_notified_when_controlled
           "(not set)" 5000 (updateMessage VNull) VNull TypeError).
  - split; reflexivity.
  - reflexivity.
Defined.

(** C2 as stated fails: on a page that was not controlled at load a
    malformed payload produces no notification. *)
Lemma malformed_update_on_uncontrolled_page_is_silent :
  ~ (forall NULL_VALUE initialSWState now data payload error,
        UPDATE_AVAILABLE data payload ->
        processMetadata now payload = Normal (Failed error) ->
        notifications (effects (onUpdateMessage NULL_VALUE initialSWState now data)) <> []).
Proof.
  intros H.
  apply (H "(not set)"%string "uncontrolled"%string 5000 (updateMessage VNull) VNull TypeError).
  - split; reflexivity.
  - reflexivity.
  - vm_compute. reflexivity.
Qed.

Lemma processMetadata_witness :
  missing (VObject ∅) "oldMetadata" /\
  exists error, processMetadata 5000 (VObject ∅) = Normal (Failed error).
Proof.
  assert (H : missing (VObject ∅) "oldMetadata") by reflexivity.
  split; [exact H|].
  destruct (proj2 processMetadata_never_throws 5000 (VObject ∅) (or_introl H))
    as (error & Hr & _).
  exists error. exact Hr.
Defined.

Lemma major_version_witness :
  first_segment "." "3.2.1" "3" /\
  majorVersion "3.2.1" = Normal (of_Z 3).
Proof.
  assert (Hseg : first_segment "." "3.2.1" "3").
  { split; [reflexivity|]. right. exists "2.1"%string. reflexivity. }
  split; [exact Hseg|].
  apply (proj2 major_version_is_number_of_first_segment "3.2.1"%string "3"%string Hseg).
  - discriminate.
  - repeat constructor.
Defined.

(** C4 as stated fails: the version "" has the first segment "", which is
    not numeric, and its major version is 0, not [NaN]. *)
Lemma empty_segment_is_zero_not_NaN :
  ~ (forall version seg,
        first_segment "." version seg ->
        ~ Grammar.StrNumericLiteral (chars seg) ->
        majorVersion version = Normal NaN).
Proof.
  intros H. specialize (H EmptyString EmptyString).
  assert (Hnan : majorVersion "" = Normal NaN).
  { apply H.
    - split; [reflexivity|left; reflexivity].
    - intros Hlit. destruct (parse_numeric_literal_complete _ Hlit) as [n Hn].
      discriminate Hn. }
  vm_compute in Hnan. discriminate Hnan.
Qed.

Lemma uncontrolled_page_witness :
  "uncontrolled"%string <> "controlled"%string /\
  notifications (effects (onUpdateMessage "(not set)" "uncontrolled" 5000
                            (sampleUpdate "4.1.0" "5.0.0"))) = [].
Proof.
  split; [discriminate|].
  apply (uncontrolled_page_is_never_notified "(not set)" "uncontrolled" 5000
           (sampleUpdate "4.1.0" "5.0.0")).
  discriminate.
Defined.

Lemma uncontrolled_page_resolves_witness :
  "uncontrolled"%string <> "controlled"%string /\
  performed (setSiteVersionOrTimeout "(not set)" "dimension1" "uncontrolled") =
    [wb_messageSW GET_METADATA; ga_set "dimension1" (VString "(not set)")].
Proof.
  split; [discriminate|].
  apply (uncontrolled_page_resolves_at_once "(not set)" "dimension1" "uncontrolled").
  discriminate.
Defined.

(** C7 as stated fails: on a page that was not controlled at load the
    promise is resolved with the sentinel, but the [GET_METADATA] message is
    sent. *)
Lemma uncontrolled_page_sends_GET_METADATA :
  ~ (forall NULL_VALUE SITE_VERSION initialSWState,
        initialSWState <> "controlled" ->
        let p := setSiteVersionOrTimeout NULL_VALUE SITE_VERSION initialSWState in
        settled p = Some (sentinel NULL_VALUE) /\
        messages is_GET_METADATA (performed p) = []).
Proof.
  intros H.
  destruct (H "(not set)"%string "dimension1"%string "uncontrolled"%string) as [_ Hnone];
    [discriminate|].
  vm_compute in Hnone. discriminate Hnone.
Qed.

Lemma late_reply_witness :
  (3000 < 4000) /\
  dimension_sets "dimension1"
    (performed
       (steps "(not set)" "dimension1"
          (setSiteVersionOrTimeout "(not set)" "dimension1" "controlled")
          (schedule "(not set)" "dimension1" "controlled"
             (Some (4000, versionMetadata "1.2.3" (of_Z 1000))) ++ []))) =
    [ga_set "dimension1" (VString "(not set)")].
Proof.
  split; [lia|].
  apply (late_reply_is_discarded "(not set)" "dimension1" "controlled"
           (Some (4000, versionMetadata "1.2.3" (of_Z 1000))) []).
  right. exists 4000, (versionMetadata "1.2.3" (of_Z 1000)). split; [reflexivity|lia].
Defined.

(** A reply within the 3000 ms sets the dimension to the version the
    worker reports, and the timer then changes nothing. *)
Example timely_reply_sets_version :
  dimension_sets "dimension1"
    (performed
       (steps "(not set)" "dimension1"
          (setSiteVersionOrTimeout "(not set)" "dimension1" "controlled")
          (schedule "(not set)" "dimension1" "controlled"
             (Some (120, versionMetadata "1.2.3" (of_Z 1000)))))) =
    [ga_set "dimension1" (VString "1.2.3")].
Proof. vm_compute. reflexivity. Qed.

Lemma update_install_witness :
  JS.truthy (VNumber one) = true /\
  messages is_CACHE_URLS
    (effects (onInstalled (VNumber one) "https://example.com/" ["/style.css"%string])) = [].
Proof.
  split; [reflexivity|].
  apply (proj1 (proj2 update_install_sends_no_CACHE_URLS)). reflexivity.
Defined.

Lemma first_install_witness :
  exists urlsToCache,
    effects (onInstalled (VBool false) "https://example.com/"
               ["/style.css"; "https://www.google-analytics.com/analytics.js"]%string) =
      [wb_messageSW (CACHE_URLS urlsToCache)] /\
    urlsToCache !! 2%nat =
      Some (UrlWithInit "https://www.google-analytics.com/analytics.js" "no-cors").
Proof.
  destruct (first_install_caches_page_and_resources "https://example.com/"
              ["/style.css"; "https://www.google-analytics.com/analytics.js"]%string)
    as (urls & Heff & _ & _ & Hentries).
  exists urls. split; [exact Heff|].
  apply (Hentries 1%nat "https://www.google-analytics.com/analytics.js"%string);
    [reflexivity|].
  exists "https://www."%string, EmptyString. reflexivity.
Defined.

(* ===================================================================== *)
(** * Further properties of [setSiteVersionOrTimeout] *)
(* ===================================================================== *)

Section SiteVersionTraces.

Variable NULL_VALUE : string.
Variable SITE_VERSION : string.
Variable initialSWState : string.

Local Abbreviation start :=
  (setSiteVersionOrTimeout NULL_VALUE SITE_VERSION initialSWState).
Local Abbreviation next := (step NULL_VALUE SITE_VERSION).
Local Abbreviation after := (steps NULL_VALUE SITE_VERSION).
Local Abbreviation sets := (dimension_sets SITE_VERSION).

Lemma sets_app es es' : sets (es ++ es') = sets es ++ sets es'.
Proof. apply List.filter_app. Qed.

Lemma resume_waiting p v :
  awaiting p = true -> settled p = Some v ->
  resumed (resume SITE_VERSION p) /\
  performed (resume SITE_VERSION p) =
    performed p ++
    match JS.get v "version" with
    | Normal version => [ga_set SITE_VERSION version]
    | Throw _ => []
    end.
Proof.
  intros Ha Hs. unfold resume. rewrite Hs, Ha.
  destruct (JS.get v "version") as [version|e]; unfold resumed;
    cbn [awaiting settled performed].
  - split; [split|]; [reflexivity|discriminate|reflexivity].
  - rewrite app_nil_r. split; [split|]; [reflexivity|discriminate|reflexivity].
Qed.

Lemma sets_one version :
  sets [ga_set SITE_VERSION version] = [ga_set SITE_VERSION version].
Proof. unfold dimension_sets. simpl. rewrite String.eqb_refl. reflexivity. Qed.

Lemma step_set_once p o :
  set_once SITE_VERSION p -> set_once SITE_VERSION (next p o).
Proof.
  intros [(Ha & Hs & Hnone) | [Hres Hlen]].
  - assert (Hsettle : forall v p',
      awaiting p' = true -> settled p' = None -> performed p' = performed p ->
      set_once SITE_VERSION (resume SITE_VERSION (resolve v p'))).
    { intros v p' Ha' Hs' Hp'.
      destruct (resume_waiting (resolve v p') v) as [Hres Hperf].
      - unfold resolve. rewrite Hs'. exact Ha'.
      - unfold resolve. rewrite Hs'. reflexivity.
      - right. split; [exact Hres|]. rewrite Hperf, sets_app.
        replace (performed (resolve v p')) with (performed p)
          by (unfold resolve; rewrite Hs'; symmetry; exact Hp').
        rewrite Hnone. destruct (JS.get v "version"); [rewrite sets_one|]; simpl; lia. }
    destruct o as [v|]; simpl.
    + apply Hsettle; auto.
    + destruct (armed p); [|left; auto]. apply Hsettle; auto.
  - right. destruct (step_resumed NULL_VALUE SITE_VERSION p o Hres) as [Hres' ->].
    split; assumption.
Qed.

Lemma start_set_once : set_once SITE_VERSION start.
Proof.
  destruct (String.eqb_spec initialSWState "controlled") as [Hc|Hu].
  - rewrite (start_controlled _ _ _ Hc). left. repeat split.
  - rewrite (start_uncontrolled _ _ _ Hu). right. split.
    + split; [reflexivity|discriminate].
    + cbn [performed]. unfold dimension_sets. simpl. rewrite String.eqb_refl.
      simpl. lia.
Qed.

Lemma steps_set_once os : forall p,
  set_once SITE_VERSION p -> set_once SITE_VERSION (after p os).
Proof.
  induction os as [|o os IH]; intros p Hp; [exact Hp|].
  apply (IH (next p o)), step_set_once, Hp.
Qed.

End SiteVersionTraces.

(** X1. Whatever the worker replies and whenever the timer fires, in any
    order and any number of times, [setSiteVersionOrTimeout] sets the
    site-version dimension at most once. *)
Theorem site_version_is_set_at_most_once NULL_VALUE SITE_VERSION initialSWState os :
  (length (dimension_sets SITE_VERSION
     (performed (steps NULL_VALUE SITE_VERSION
        (setSiteVersionOrTimeout NULL_VALUE SITE_VERSION initialSWState) os))) <= 1)%nat.
Proof.
  destruct (steps_set_once NULL_VALUE SITE_VERSION os _
              (start_set_once NULL_VALUE SITE_VERSION initialSWState))
    as [(_ & _ & ->) | [_ H]]; [simpl; lia|exact H].
Qed.

(** X2. On a page that was controlled at load, a reply of the worker that
    arrives before the timer decides the dimension: it is set once, to the
    [version] property of the reply ([undefined] when the reply has none),
    and neither the timer nor anything later changes it. *)
Theorem timely_reply_decides_site_version NULL_VALUE SITE_VERSION v version later :
  JS.get v "version" = Normal version ->
  dimension_sets SITE_VERSION
    (performed (steps NULL_VALUE SITE_VERSION
       (setSiteVersionOrTimeout NULL_VALUE SITE_VERSION "controlled")
       (reply v :: later))) =
  [ga_set SITE_VERSION version].
Proof.
  intros Hv.
  change (steps NULL_VALUE SITE_VERSION ?p (reply v :: later))
    with (steps NULL_VALUE SITE_VERSION (step NULL_VALUE SITE_VERSION p (reply v)) later).
  rewrite (start_controlled NULL_VALUE SITE_VERSION "controlled" eq_refl).
  destruct (resume_waiting SITE_VERSION
              (resolve v {| settled := None; awaiting := true; armed := Some 3000;
                            performed := [wb_messageSW GET_METADATA] |}) v
              eq_refl eq_refl) as [Hres Hperf].
  cbn [step]. rewrite (steps_resumed _ _ _ _ Hres), Hperf, Hv.
  unfold dimension_sets. simpl. rewrite String.eqb_refl. reflexivity.
Qed.

(** X3. On a page that was controlled at load, a reply that is [null] or
    [undefined] and arrives before the timer leaves the dimension unset for
    good: destructuring it rejects the function, and the timer firing
    afterwards finds the promise settled. *)
Theorem null_reply_leaves_site_version_unset NULL_VALUE SITE_VERSION v later :
  v = VNull \/ v = VUndefined ->
  dimension_sets SITE_VERSION
    (performed (steps NULL_VALUE SITE_VERSION
       (setSiteVersionOrTimeout NULL_VALUE SITE_VERSION "controlled")
       (reply v :: later))) = [].
Proof.
  intros Hv.
  assert (Hget : JS.get v "version" = Throw TypeError)
    by (destruct Hv as [-> | ->]; reflexivity).
  change (steps NULL_VALUE SITE_VERSION ?p (reply v :: later))
    with (steps NULL_VALUE SITE_VERSION (step NULL_VALUE SITE_VERSION p (reply v)) later).
  rewrite (start_controlled NULL_VALUE SITE_VERSION "controlled" eq_refl).
  destruct (resume_waiting SITE_VERSION
              (resolve v {| settled := None; awaiting := true; armed := Some 3000;
                            performed := [wb_messageSW GET_METADATA] |}) v
              eq_refl eq_refl) as [Hres Hperf].
  cbn [step]. rewrite (steps_resumed _ _ _ _ Hres), Hperf, Hget. reflexivity.
Qed.

(* ===================================================================== *)
(** * Properties of [setNavigationCacheOrTimeout] *)
(* ===================================================================== *)

Section NavigationCacheFacts.

Variable NULL_VALUE : string.
Variable CACHE_HIT : string.
Variable number_to_string : number -> string.

Local Abbreviation begin := (setNavigationCacheOrTimeout CACHE_HIT).
Local Abbreviation proceed := (navigation_step NULL_VALUE CACHE_HIT number_to_string).
Local Abbreviation run_on := (navigation_steps NULL_VALUE CACHE_HIT number_to_string).
Local Abbreviation continue := (resumeNavigation CACHE_HIT number_to_string).
Local Abbreviation hits := (dimension_sets CACHE_HIT).

(** What the code after the [await] sets for a settled value. *)
Local Abbreviation set_for v :=
  (match cacheHit ← JS.get v "cacheHit"; to_string number_to_string cacheHit with
   | Normal s => [ga_set CACHE_HIT (VString s)]
   | Throw _ => []
   end).

Lemma continue_waiting p v :
  awaiting p = true -> settled p = Some v ->
  resumed (continue p) /\ performed (continue p) = performed p ++ set_for v.
Proof.
  intros Ha Hs. unfold resumeNavigation. rewrite Hs, Ha.
  destruct (_ ≫= _) as [s|e]; unfold resumed; cbn [awaiting settled performed].
  - split; [split|]; [reflexivity|discriminate|reflexivity].
  - rewrite app_nil_r. split; [split|]; [reflexivity|discriminate|reflexivity].
Qed.

Lemma continue_resumed p : awaiting p = false -> continue p = p.
Proof. unfold resumeNavigation. intros ->. destruct (settled p); reflexivity. Qed.

Lemma continue_pending p : settled p = None -> continue p = p.
Proof. unfold resumeNavigation. intros ->. reflexivity. Qed.

Lemma onNavigationMessage_resumed data p :
  settled p <> None -> onNavigationMessage data p = p.
Proof.
  intros Hs. unfold onNavigationMessage.
  destruct (JS.get data "type") as [type|e]; [|reflexivity].
  destruct (strict_equals type "NAVIGATION_REPORT"); [|reflexivity].
  destruct (JS.get data "payload"); [apply resolve_settled, Hs|reflexivity].
Qed.

Lemma onNavigationMessage_other data p :
  other_than "NAVIGATION_REPORT" data -> onNavigationMessage data p = p.
Proof.
  unfold other_than, onNavigationMessage.
  destruct (JS.get data "type") as [type|e]; [intros ->|]; reflexivity.
Qed.

Lemma onNavigationMessage_report data payload p :
  NAVIGATION_REPORT data payload -> onNavigationMessage data p = resolve payload p.
Proof.
  intros [Htype Hpayload]. unfold onNavigationMessage. rewrite Htype, Hpayload.
  reflexivity.
Qed.

Lemma proceed_resumed p o :
  resumed p -> resumed (proceed p o) /\ performed (proceed p o) = performed p.
Proof.
  intros [Ha Hs]. destruct o as [data|]; simpl.
  - rewrite (onNavigationMessage_resumed data p Hs), (continue_resumed p Ha).
    repeat split; assumption.
  - destruct (armed p); [|repeat split; assumption].
    rewrite resolve_settled by exact Hs. rewrite continue_resumed by exact Ha.
    repeat split; assumption.
Qed.

Lemma run_on_resumed os : forall p,
  resumed p -> performed (run_on p os) = performed p.
Proof.
  induction os as [|o os IH]; intros p Hp; [reflexivity|].
  destruct (proceed_resumed p o Hp) as [Hp' Hperf].
  unfold navigation_steps in *. simpl. rewrite (IH _ Hp'). exact Hperf.
Qed.

Lemma run_on_others others : forall p,
  settled p = None ->
  Forall (other_than "NAVIGATION_REPORT") others ->
  run_on p (map worker_message others) = p.
Proof.
  induction others as [|data others IH]; intros p Hp Hothers; [reflexivity|].
  inversion Hothers as [|? ? Hdata Hrest]; subst.
  unfold navigation_steps in *. simpl.
  rewrite (onNavigationMessage_other data p Hdata), (continue_pending p Hp).
  apply IH; assumption.
Qed.

Lemma run_on_app p os os' : run_on p (os ++ os') = run_on (run_on p os) os'.
Proof. apply fold_left_app. Qed.

Lemma begin_controlled :
  begin "controlled" number_to_string =
    {| settled := None; awaiting := true; armed := Some 3000; performed := [] |}.
Proof. reflexivity. Qed.

Lemma begin_uncontrolled initialSWState :
  initialSWState <> "controlled" ->
  begin initialSWState number_to_string =
    {| settled := Some (VObject {[ "cacheHit" := VBool false ]});
       awaiting := false; armed := Some 3000;
       performed := [ga_set CACHE_HIT (VString "false")] |}.
Proof.
  intros H. apply uncontrolled_spec in H.
  unfold setNavigationCacheOrTimeout. rewrite H. reflexivity.
Qed.

Lemma hits_one s : hits [ga_set CACHE_HIT (VString s)] = [ga_set CACHE_HIT (VString s)].
Proof. unfold dimension_sets. simpl. rewrite String.eqb_refl. reflexivity. Qed.

Lemma settle_set_once p v :
  awaiting p = true -> settled p = None -> hits (performed p) = [] ->
  set_once CACHE_HIT (continue (resolve v p)).
Proof.
  intros Ha Hs Hnone.
  destruct (continue_waiting (resolve v p) v) as [Hres Hperf].
  - unfold resolve. rewrite Hs. exact Ha.
  - unfold resolve. rewrite Hs. reflexivity.
  - right. split; [exact Hres|]. rewrite Hperf.
    replace (performed (resolve v p)) with (performed p)
      by (unfold resolve; rewrite Hs; reflexivity).
    unfold dimension_sets in *. rewrite List.filter_app, Hnone.
    destruct (_ ≫= _); simpl; [rewrite String.eqb_refl|]; simpl; lia.
Qed.

Lemma proceed_set_once p o : set_once CACHE_HIT p -> set_once CACHE_HIT (proceed p o).
Proof.
  intros [(Ha & Hs & Hnone) | [Hres Hlen]].
  - destruct o as [data|]; simpl.
    + unfold onNavigationMessage.
      destruct (JS.get data "type") as [type|e];
        [|rewrite (continue_pending p Hs); left; auto].
      destruct (strict_equals type "NAVIGATION_REPORT");
        [|rewrite (continue_pending p Hs); left; auto].
      destruct (JS.get data "payload") as [payload|e];
        [|rewrite (continue_pending p Hs); left; auto].
      apply settle_set_once; assumption.
    + destruct (armed p); [|left; auto]. apply settle_set_once; assumption.
  - right. destruct (proceed_resumed p o Hres) as [Hres' ->]. split; assumption.
Qed.

Lemma run_on_set_once os : forall p,
  set_once CACHE_HIT p -> set_once CACHE_HIT (run_on p os).
Proof.
  induction os as [|o os IH]; intros p Hp; [exact Hp|].
  apply (IH (proceed p o)), proceed_set_once, Hp.
Qed.

Lemma begin_set_once initialSWState :
  set_once CACHE_HIT (begin initialSWState number_to_string).
Proof.
  destruct (String.eqb_spec initialSWState "controlled") as [-> | Hu].
  - left. repeat split.
  - rewrite (begin_uncontrolled _ Hu). right. split.
    + split; [reflexivity|discriminate].
    + cbn [performed]. rewrite hits_one. simpl. lia.
Qed.

End NavigationCacheFacts.

(** X4. On a page that was not controlled at load,
    [setNavigationCacheOrTimeout] sets the cache-hit dimension to the string
    "false" at once, and no message and no timer changes that later. *)
Theorem uncontrolled_page_is_no_cache_hit
    NULL_VALUE CACHE_HIT initialSWState number_to_string os :
  initialSWState <> "controlled" ->
  performed (navigation_steps NULL_VALUE CACHE_HIT number_to_string
               (setNavigationCacheOrTimeout CACHE_HIT initialSWState number_to_string)
               os) =
  [ga_set CACHE_HIT (VString "false")].
Proof.
  intros H. rewrite run_on_resumed; rewrite (begin_uncontrolled _ _ _ H).
  - reflexivity.
  - split; [reflexivity|discriminate].
Qed.

(** X5. Whatever messages the worker posts and whenever the timer fires,
    [setNavigationCacheOrTimeout] sets the cache-hit dimension at most
    once. *)
Theorem cache_hit_is_set_at_most_once
    NULL_VALUE CACHE_HIT initialSWState number_to_string os :
  (length (dimension_sets CACHE_HIT
     (performed (navigation_steps NULL_VALUE CACHE_HIT number_to_string
        (setNavigationCacheOrTimeout CACHE_HIT initialSWState number_to_string)
        os))) <= 1)%nat.
Proof.
  destruct (run_on_set_once NULL_VALUE CACHE_HIT number_to_string os _
              (begin_set_once CACHE_HIT number_to_string initialSWState))
    as [(_ & _ & ->) | [_ H]]; [simpl; lia|exact H].
Qed.

(** X6. On a page that was controlled at load, the first
    [NAVIGATION_REPORT] message decides the dimension when it comes before
    the timer: messages of other types before it are ignored, the dimension
    is set once to [String(payload.cacheHit)] ("true" for [true], "false"
    for [false]), and nothing later changes it. *)
Theorem first_report_decides_cache_hit
    NULL_VALUE CACHE_HIT number_to_string others data payload cacheHit s later :
  Forall (other_than "NAVIGATION_REPORT") others ->
  NAVIGATION_REPORT data payload ->
  JS.get payload "cacheHit" = Normal cacheHit ->
  to_string number_to_string cacheHit = Normal s ->
  dimension_sets CACHE_HIT
    (performed (navigation_steps NULL_VALUE CACHE_HIT number_to_string
       (setNavigationCacheOrTimeout CACHE_HIT "controlled" number_to_string)
       (map worker_message others ++ worker_message data :: later))) =
  [ga_set CACHE_HIT (VString s)].
Proof.
  intros Hothers Hdata Hhit Hs.
  rewrite run_on_app, begin_controlled, run_on_others by (auto; reflexivity).
  change (navigation_steps NULL_VALUE CACHE_HIT number_to_string ?p
            (worker_message data :: later))
    with (navigation_steps NULL_VALUE CACHE_HIT number_to_string
            (navigation_step NULL_VALUE CACHE_HIT number_to_string p
               (worker_message data)) later).
  cbn [navigation_step]. rewrite (onNavigationMessage_report data payload _ Hdata).
  destruct (continue_waiting CACHE_HIT number_to_string
              (resolve payload {| settled := None; awaiting := true;
                                  armed := Some 3000; performed := [] |}) payload
              eq_refl eq_refl) as [Hres Hperf].
  rewrite (run_on_resumed _ _ _ _ _ Hres), Hperf, Hhit. simpl. rewrite Hs.
  apply hits_one.
Qed.

(** X7. On a page that was controlled at load, a [NAVIGATION_REPORT] whose
    payload is [null] or missing, coming before the timer, leaves the
    dimension unset for good: the destructuring rejects the function, and
    the timer firing afterwards finds the promise settled. *)
Theorem empty_report_leaves_cache_hit_unset
    NULL_VALUE CACHE_HIT number_to_string others data payload later :
  Forall (other_than "NAVIGATION_REPORT") others ->
  NAVIGATION_REPORT data payload ->
  payload = VNull \/ payload = VUndefined ->
  dimension_sets CACHE_HIT
    (performed (navigation_steps NULL_VALUE CACHE_HIT number_to_string
       (setNavigationCacheOrTimeout CACHE_HIT "controlled" number_to_string)
       (map worker_message others ++ worker_message data :: later))) = [].
Proof.
  intros Hothers Hdata Hpayload.
  assert (Hget : JS.get payload "cacheHit" = Throw TypeError)
    by (destruct Hpayload as [-> | ->]; reflexivity).
  rewrite run_on_app, begin_controlled, run_on_others by (auto; reflexivity).
  change (navigation_steps NULL_VALUE CACHE_HIT number_to_string ?p
            (worker_message data :: later))
    with (navigation_steps NULL_VALUE CACHE_HIT number_to_string
            (navigation_step NULL_VALUE CACHE_HIT number_to_string p
               (worker_message data)) later).
  cbn [navigation_step]. rewrite (onNavigationMessage_report data payload _ Hdata).
  destruct (continue_waiting CACHE_HIT number_to_string
              (resolve payload {| settled := None; awaiting := true;
                                  armed := Some 3000; performed := [] |}) payload
              eq_refl eq_refl) as [Hres Hperf].
  rewrite (run_on_resumed _ _ _ _ _ Hres), Hperf, Hget. reflexivity.
Qed.

(** X8. On a page that was controlled at load, when the timer fires before
    any [NAVIGATION_REPORT] arrives (other messages may have come), the
    dimension is set once to [NULL_VALUE], and a report that comes later is
    discarded. *)
Theorem late_report_is_discarded
    NULL_VALUE CACHE_HIT number_to_string others later :
  Forall (other_than "NAVIGATION_REPORT") others ->
  dimension_sets CACHE_HIT
    (performed (navigation_steps NULL_VALUE CACHE_HIT number_to_string
       (setNavigationCacheOrTimeout CACHE_HIT "controlled" number_to_string)
       (map worker_message others ++ navigation_timer_fired :: later))) =
  [ga_set CACHE_HIT (VString NULL_VALUE)].
Proof.
  intros Hothers.
  rewrite run_on_app, begin_controlled, run_on_others by (auto; reflexivity).
  change (navigation_steps NULL_VALUE CACHE_HIT number_to_string ?p
            (navigation_timer_fired :: later))
    with (navigation_steps NULL_VALUE CACHE_HIT number_to_string
            (navigation_step NULL_VALUE CACHE_HIT number_to_string p
               navigation_timer_fired) later).
  cbn [navigation_step armed settled awaiting performed].
  destruct (continue_waiting CACHE_HIT number_to_string
              (resolve (VObject {[ "cacheHit" := VString NULL_VALUE ]})
                 {| settled := None; awaiting := true;
                    armed := None; performed := [] |})
              (VObject {[ "cacheHit" := VString NULL_VALUE ]})
              eq_refl eq_refl) as [Hres Hperf].
  rewrite (run_on_resumed _ _ _ _ _ Hres), Hperf.
  replace (JS.get (VObject {[ "cacheHit" := VString NULL_VALUE ]}) "cacheHit")
    with (Normal (VString NULL_VALUE))
    by (unfold JS.get; rewrite lookup_singleton_eq; reflexivity).
  apply hits_one.
Qed.

(* ===================================================================== *)
(** * Integers as numbers *)
(* ===================================================================== *)

Section IntegerNumbers.

Lemma digits2_upper_bound p : Zpos p < 2 ^ Zpos (digits2_pos p).
Proof.
  induction p as [p IH|p IH|]; simpl digits2_pos.
  - rewrite Pos2Z.inj_succ, Z.pow_succ_r by lia.
    pose proof (Pos2Z.inj_xI p). lia.
  - rewrite Pos2Z.inj_succ, Z.pow_succ_r by lia.
    pose proof (Pos2Z.inj_xO p). lia.
  - simpl. lia.
Qed.

Lemma digits2_at_most_53 p : Zpos p < 2 ^ 53 -> Zpos (digits2_pos p) <= 53.
Proof.
  intros Hp.
  destruct (Z.le_gt_cases (Zpos (digits2_pos p)) 53) as [H|H]; [exact H|].
  pose proof (digits2_lower_bound p) as Hlow.
  assert (2 ^ 53 <= 2 ^ (Zpos (digits2_pos p) - 1)) by (apply Z.pow_le_mono_r; lia).
  lia.
Qed.

(** The number of a positive integer below 2^53: its mantissa is the
    integer shifted to 53 bits. *)
Lemma of_Z_pos p :
  Zpos p < 2 ^ 53 ->
  exists m,
    of_Z (Zpos p) = S754_finite false m (Zpos (digits2_pos p) - 53) /\
    Zpos m = Zpos p * 2 ^ (53 - Zpos (digits2_pos p)).
Proof.
  intros Hp. pose proof (digits2_at_most_53 p Hp) as Hd.
  unfold of_Z, binary_normalize, binary_round.
  replace (fexp prec emax (Zpos (digits2_pos p) + 0))
    with (Zpos (digits2_pos p) - 53)
    by (unfold fexp, SpecFloat.emin, prec, emax; lia).
  unfold shl_align.
  destruct (Zpos (digits2_pos p) - 53 - 0) as [|k|k] eqn:Hk; [|lia|].
  - exists p. rewrite binary_round_aux_canonical by (unfold prec; lia).
    replace (Zpos (digits2_pos p) - 53) with 0 by lia.
    replace (53 - Zpos (digits2_pos p)) with 0 by lia.
    split; [reflexivity|]. rewrite Z.pow_0_r. lia.
  - exists (Pos.iter xO p k). rewrite binary_round_aux_canonical.
    2:{ rewrite digits2_iter_xO. unfold prec. lia. }
    2:{ lia. }
    split; [reflexivity|]. rewrite iter_xO_value. f_equal. f_equal. lia.
Qed.

Lemma of_Z_truthy z : 0 <= z < 2 ^ 53 -> JSNumber.truthy (of_Z z) = negb (z =? 0).
Proof.
  intros [Hz0 Hz]. destruct z as [|p|p]; [reflexivity| |lia].
  destruct (of_Z_pos p Hz) as (m & -> & _). reflexivity.
Qed.

(** On integers below 2^53, [<=] on numbers is [<=] on integers. *)
Lemma of_Z_le a b :
  0 <= a < 2 ^ 53 -> 0 <= b < 2 ^ 53 ->
  JSNumber.le (of_Z a) (of_Z b) = (a <=? b).
Proof.
  intros [Ha0 Ha] [Hb0 Hb]. unfold JSNumber.le, SFleb.
  destruct a as [|p|p]; [| |lia]; destruct b as [|q|q]; try lia.
  - reflexivity.
  - destruct (of_Z_pos q Hb) as (m & -> & _). reflexivity.
  - destruct (of_Z_pos p Ha) as (m & -> & _). reflexivity.
  - destruct (of_Z_pos p Ha) as (m & -> & Hm).
    destruct (of_Z_pos q Hb) as (n & -> & Hn).
    pose proof (digits2_lower_bound p) as Hpl.
    pose proof (digits2_upper_bound p) as Hpu.
    pose proof (digits2_lower_bound q) as Hql.
    pose proof (digits2_upper_bound q) as Hqu.
    pose proof (digits2_at_most_53 p Ha) as Hpd.
    pose proof (digits2_at_most_53 q Hb) as Hqd.
    cbn [SFcompare].
    destruct (Z.compare_spec (Zpos (digits2_pos p) - 53) (Zpos (digits2_pos q) - 53))
      as [He|He|He].
    + assert (Hd : Zpos (digits2_pos p) = Zpos (digits2_pos q)) by lia.
      rewrite Hd in Hm.
      assert (Hpow : 0 < 2 ^ (53 - Zpos (digits2_pos q)))
        by (apply Z.pow_pos_nonneg; lia).
      rewrite Pos.compare_cont_spec. cbn [Pos.switch_Eq].
      destruct (Pos.compare_spec m n) as [Hmn|Hmn|Hmn].
      * symmetry. apply Z.leb_le. subst n. nia.
      * symmetry. apply Z.leb_le.
        assert (Zpos m < Zpos n) by lia. nia.
      * symmetry. apply Z.leb_gt.
        assert (Zpos n < Zpos m) by lia. nia.
    + symmetry. apply Z.leb_le.
      assert (2 ^ Zpos (digits2_pos p) <= 2 ^ (Zpos (digits2_pos q) - 1))
        by (apply Z.pow_le_mono_r; lia).
      lia.
    + symmetry. apply Z.leb_gt.
      assert (2 ^ Zpos (digits2_pos q) <= 2 ^ (Zpos (digits2_pos p) - 1))
        by (apply Z.pow_le_mono_r; lia).
      lia.
Qed.

End IntegerNumbers.

(* ===================================================================== *)
(** * Further properties of [processMetadata] and the update listener *)
(* ===================================================================== *)

Section UpdateDecision.

Lemma majorVersion_returns version : exists n, majorVersion version = Normal n.
Proof.
  destruct (first_segment_exists "." version) as [seg Hseg].
  rewrite (majorVersion_segment version seg Hseg). eauto.
Qed.

Lemma version_ok_string metadata :
  version_ok metadata ->
  exists v s, JS.get metadata "version" = Normal v /\
              JS.or v (VString "") = VString s.
Proof.
  intros (v & Hv & [Hfalsy | [s ->]]).
  - exists v, EmptyString. split; [exact Hv|]. unfold JS.or. rewrite Hfalsy.
    reflexivity.
  - exists (VString s), s. split; [exact Hv|]. unfold JS.or.
    destruct (JS.truthy (VString s)) eqn:Ht; [reflexivity|].
    simpl in Ht. apply negb_false_iff, String.eqb_eq in Ht. subst s. reflexivity.
Qed.

Lemma or_string_version_ok metadata v s :
  JS.get metadata "version" = Normal v ->
  JS.or v (VString "") = VString s ->
  version_ok metadata.
Proof.
  intros Hv Hor. exists v. split; [exact Hv|]. unfold JS.or in Hor.
  destruct (JS.truthy v); [right; eauto|left; reflexivity].
Qed.

(** X9. [processMetadata] returns the five fields exactly for the payloads
    that have both metadata objects, versions that are strings or falsy, and
    a build time that converts to a number; every other payload gives
    [{error}]. In particular a version that is a non-zero number, [true], an
    array or an object makes the payload malformed. *)
Theorem processMetadata_processes_exactly_the_well_formed now payload :
  (exists m, processMetadata now payload = Normal (Processed m)) <->
  well_formed payload.
Proof.
  split.
  - intros [m Hm].
    destruct (processMetadata_processed now payload m Hm)
      as (om & nm & ovv & nvv & btv & bt & Hom & Hnm & Hov & Hnv & Hovs & Hnvs
          & _ & _ & Hbtv & Hbt & _).
    exists om, nm, btv, bt. repeat split; try assumption.
    + eapply or_string_version_ok; eassumption.
    + eapply or_string_version_ok; eassumption.
  - intros (om & nm & btv & bt & Hom & Hnm & Hok_old & Hok_new & Hbtv & Hbt).
    destruct (version_ok_string om Hok_old) as (ovv & ov & Hov & Hovs).
    destruct (version_ok_string nm Hok_new) as (nvv & nv & Hnv & Hnvs).
    destruct (majorVersion_returns ov) as [omaj Homaj].
    destruct (majorVersion_returns nv) as [nmaj Hnmaj].
    eexists. unfold processMetadata.
    replace (match payload with VUndefined => VObject ∅ | _ => payload end)
      with payload by (destruct payload; try reflexivity; discriminate Hom).
    unfold processMetadata_try. rewrite Hom. cbn [mbind completion_bind].
    rewrite Hnm. cbn [mbind completion_bind].
    rewrite Hov. cbn [fmap completion_fmap mbind completion_bind].
    rewrite Hnv. cbn [fmap completion_fmap mbind completion_bind].
    rewrite Hovs. cbn [JS.split_receiver mbind completion_bind].
    rewrite Homaj. cbn [mbind completion_bind].
    rewrite Hnvs. cbn [JS.split_receiver mbind completion_bind].
    rewrite Hnmaj. cbn [mbind completion_bind].
    rewrite Hbtv. cbn [mbind completion_bind].
    rewrite Hbt. reflexivity.
Qed.

(** X10. An update whose new metadata carries no version (or an empty or
    falsy one) is always notified on a page that was controlled at load,
    whatever the old version: the new major version is then 0, which the
    test treats as unknown. The events are labelled [NULL_VALUE]. *)
Theorem update_without_new_version_is_notified NULL_VALUE now data payload m :
  UPDATE_AVAILABLE data payload ->
  processMetadata now payload = Normal (Processed m) ->
  newVersion m = EmptyString ->
  newMajorVersion m = zero /\
  effects (onUpdateMessage NULL_VALUE "controlled" now data) =
    [sendEvent NULL_VALUE (Processed m) "Service Worker" "sw-update";
     updateNotification NULL_VALUE (Processed m);
     sendEvent NULL_VALUE (Processed m) "Messages" "sw-update-notify"] /\
  eventLabel NULL_VALUE (Some (oldVersion m)) (Some (newVersion m)) = NULL_VALUE.
Proof.
  intros Hdata Hm Hnew.
  destruct (processMetadata_processed now payload m Hm)
    as (_ & _ & _ & _ & _ & _ & _ & _ & _ & _ & _ & _ & _ & Hmaj & _).
  rewrite Hnew in Hmaj. injection Hmaj as Hzero.
  split; [symmetry; exact Hzero|]. split.
  - rewrite (onUpdateMessage_effects NULL_VALUE "controlled" now data payload _ Hdata Hm).
    rewrite shouldNotifyUser_processed, <- Hzero. reflexivity.
  - rewrite Hnew. reflexivity.
Qed.

(** X11. For versions whose first segments spell integers below 2^53 (as
    in "3.2.1" or "10.0.0"), on a page that was controlled at load the user
    is notified exactly when the new major version is 0 or greater than the
    old one: the comparison is numeric, not alphabetic. *)
Theorem notified_iff_major_version_grows
    NULL_VALUE now data payload m old_segment old_major new_segment new_major :
  UPDATE_AVAILABLE data payload ->
  processMetadata now payload = Normal (Processed m) ->
  first_segment "." (oldVersion m) old_segment -> spells old_segment old_major ->
  first_segment "." (newVersion m) new_segment -> spells new_segment new_major ->
  old_major < 2 ^ 53 -> new_major < 2 ^ 53 ->
  notifications (effects (onUpdateMessage NULL_VALUE "controlled" now data)) <> [] <->
  new_major = 0 \/ old_major < new_major.
Proof.
  intros Hdata Hm Hold_seg (Hold_ne & Hold_ds & Hold) Hnew_seg (Hnew_ne & Hnew_ds & Hnew)
    Hold_lt Hnew_lt.
  destruct (processMetadata_processed now payload m Hm)
    as (_ & _ & _ & _ & _ & _ & _ & _ & _ & _ & _ & _ & Homaj & Hnmaj & _).
  rewrite (majorVersion_segment _ _ Hold_seg),
    (StringToNumber_digits _ Hold_ne Hold_ds), Hold in Homaj.
  rewrite (majorVersion_segment _ _ Hnew_seg),
    (StringToNumber_digits _ Hnew_ne Hnew_ds), Hnew in Hnmaj.
  injection Homaj as Homaj. injection Hnmaj as Hnmaj.
  assert (Hold0 : 0 <= old_major) by (subst old_major; apply decimal_value_nonneg, Hold_ds).
  assert (Hnew0 : 0 <= new_major) by (subst new_major; apply decimal_value_nonneg, Hnew_ds).
  rewrite (onUpdateMessage_effects NULL_VALUE "controlled" now data payload _ Hdata Hm).
  rewrite shouldNotifyUser_processed, <- Homaj, <- Hnmaj.
  rewrite of_Z_truthy, of_Z_le by lia.
  change (uncontrolled "controlled") with false.
  destruct (Z.eqb_spec new_major 0) as [Hz|Hz];
    destruct (Z.leb_spec new_major old_major) as [Hle|Hgt]; simpl;
    split; intros H; try discriminate; try congruence; try lia; auto.
Qed.

End UpdateDecision.

(* ===================================================================== *)
(** * Properties of the cache-update listener *)
(* ===================================================================== *)

(** X12. The cache-update listener reloads the content only for a
    [CACHE_UPDATED] message: it calls [loadPage] with the payload's
    [updatedURL] (unchecked: [undefined] when the payload has none) and then
    sends one "cache-update" event labelled with the same value. A
    [CACHE_UPDATED] message whose payload is [null] or missing makes the
    listener throw before it loads or reports anything. *)
Theorem cache_update_loads_then_reports :
  (forall data payload updatedURL,
      CACHE_UPDATED data payload ->
      JS.get payload "updatedURL" = Normal updatedURL ->
      onCacheMessage data =
        Normal [loadPage updatedURL;
                ga_send_labelled "Service Worker" "cache-update" updatedURL]) /\
  (forall data payload,
      CACHE_UPDATED data payload ->
      payload = VNull \/ payload = VUndefined ->
      onCacheMessage data = Throw TypeError) /\
  (forall data es,
      onCacheMessage data = Normal es -> es <> [] ->
      exists payload updatedURL,
        CACHE_UPDATED data payload /\
        JS.get payload "updatedURL" = Normal updatedURL /\
        es = [loadPage updatedURL;
              ga_send_labelled "Service Worker" "cache-update" updatedURL]).
Proof.
  split; [|split].
  - intros data payload url [Htype Hpayload] Hurl. unfold onCacheMessage.
    rewrite Htype. simpl. rewrite Hpayload. simpl. rewrite Hurl. reflexivity.
  - intros data payload [Htype Hpayload] Hnull. unfold onCacheMessage.
    rewrite Htype. simpl. rewrite Hpayload. simpl.
    destruct Hnull as [-> | ->]; reflexivity.
  - intros data es. unfold onCacheMessage.
    destruct (JS.get data "type") as [type|[]] eqn:Htype; simpl; [|discriminate].
    destruct (strict_equals type "CACHE_UPDATED") eqn:Heq; simpl; [|congruence].
    destruct type as [| | | |s| |]; try discriminate Heq.
    apply String.eqb_eq in Heq as ->.
    destruct (JS.get data "payload") as [payload|[]] eqn:Hpayload; simpl; [|discriminate].
    destruct (JS.get payload "updatedURL") as [url|[]] eqn:Hurl; simpl; [|discriminate].
    intros H _. injection H as <-. exists payload, url. repeat split; assumption.
Qed.

(** X13. No message makes both ['message'] listeners act: when the
    cache-update listener loads content the update listener does nothing (no
    event, no notification), and when the update listener does anything the
    cache-update listener does nothing. *)
Theorem message_listeners_are_exclusive NULL_VALUE initialSWState now data :
  (forall es, onCacheMessage data = Normal es -> es <> [] ->
              effects (onUpdateMessage NULL_VALUE initialSWState now data) = []) /\
  (effects (onUpdateMessage NULL_VALUE initialSWState now data) <> [] ->
   onCacheMessage data = Normal []).
Proof.
  unfold onCacheMessage, onUpdateMessage.
  destruct (JS.get data "type") as [type|[]] eqn:Htype; simpl;
    [|split; [discriminate|congruence]].
  destruct type as [| | | |s| |]; simpl; try (split; congruence).
  destruct (String.eqb_spec s "CACHE_UPDATED") as [-> | Hne]; simpl.
  - split; [reflexivity|congruence].
  - split; [congruence|reflexivity].
Qed.

(* ===================================================================== *)
(** * Properties of the analytics module *)
(* ===================================================================== *)

Section ShuffleFacts.

Import Analytics.

Context {A : Type}.
Implicit Types (array : list A).

Lemma insert_Permutation array i x y :
  array !! i = Some x -> <[i:=y]> array ≡ₚ y :: delete i array.
Proof.
  intros Hi. rewrite insert_take_drop by (eapply lookup_lt_Some, Hi).
  rewrite delete_take_drop. symmetry. apply Permutation_middle.
Qed.

Lemma swap_Permutation i j array : swap i j array ≡ₚ array.
Proof.
  unfold swap.
  destruct (array !! i) as [x|] eqn:Hi; [|reflexivity].
  destruct (array !! j) as [y|] eqn:Hj; [|reflexivity].
  destruct (decide (i = j)) as [-> | Hne].
  - rewrite list_insert_insert_eq, list_insert_id; [reflexivity|].
    congruence.
  - assert (Hj' : <[i:=y]> array !! j = Some y)
      by (rewrite list_lookup_insert_ne; assumption).
    etrans; [apply (insert_Permutation _ j y x Hj')|].
    etrans; [|symmetry; apply (delete_Permutation array i x Hi)].
    apply Permutation_skip, (inj (cons y)).
    etrans; [symmetry; apply (delete_Permutation _ j y Hj')|].
    apply (insert_Permutation _ i x y Hi).
Qed.

Lemma shuffle_from_Permutation draw i : forall array,
  shuffle_from draw i array ≡ₚ array.
Proof.
  induction i as [|i IH]; intros array; [reflexivity|].
  simpl. rewrite IH. apply swap_Permutation.
Qed.

End ShuffleFacts.

Section AnalyticsClaims.

Import Analytics.

Lemma swap_lookup_other {A} i j k (array : list A) :
  k <> i -> k <> j -> swap i j array !! k = array !! k.
Proof.
  intros Hi Hj. unfold swap.
  destruct (array !! i); [|reflexivity]. destruct (array !! j); [|reflexivity].
  rewrite !list_lookup_insert_ne by congruence. reflexivity.
Qed.

Lemma swap_lookup_first {A} i j (array : list A) :
  (j <= i)%nat -> (i < length array)%nat -> swap i j array !! i = array !! j.
Proof.
  intros Hj Hi. unfold swap.
  destruct (lookup_lt_is_Some_2 array i Hi) as [x Hx].
  destruct (lookup_lt_is_Some_2 array j ltac:(lia)) as [y Hy].
  rewrite Hx, Hy. destruct (decide (i = j)) as [-> | Hne].
  - rewrite list_lookup_insert_eq by (rewrite length_insert; lia). congruence.
  - rewrite list_lookup_insert_ne by congruence.
    rewrite list_lookup_insert_eq by lia. reflexivity.
Qed.

(** The iterations at indices up to [i] leave every index above [i] as it
    is. *)
Lemma shuffle_from_above {A} (draw : nat -> nat) i : forall (array : list A) k,
  (forall i, (draw i <= i)%nat) -> (i < k)%nat ->
  shuffle_from draw i array !! k = array !! k.
Proof.
  induction i as [|i IH]; intros array k Hdraw Hk; [reflexivity|].
  simpl. rewrite IH by (auto; lia).
  pose proof (Hdraw (S i)). apply swap_lookup_other; lia.
Qed.

(** X14. [shuffleArray] returns a rearrangement of its input: every element
    is kept, none is added and the length is unchanged, whatever the random
    draws (each draw at index [i] being at most [i]). The last position
    receives the element picked by the first draw and is not touched
    again. *)
Theorem shuffleArray_permutes {A} (draw : nat -> nat) (array : list A) :
  (forall i, (draw i <= i)%nat) ->
  shuffleArray draw array ≡ₚ array /\
  length (shuffleArray draw array) = length array /\
  shuffleArray draw array !! (length array - 1)%nat =
    array !! draw (length array - 1)%nat.
Proof.
  intros Hdraw.
  assert (H : shuffleArray draw array ≡ₚ array) by apply shuffle_from_Permutation.
  split; [exact H|]. split; [rewrite H; reflexivity|].
  unfold shuffleArray. destruct (length array - 1)%nat as [|i] eqn:Hlen.
  - pose proof (Hdraw 0%nat). replace (draw 0%nat) with 0%nat by lia. reflexivity.
  - simpl. rewrite shuffle_from_above by (auto; lia).
    apply swap_lookup_first; [apply Hdraw|lia].
Qed.

Lemma createGaProxy_fmap ts command args :
  createGaProxy ts command args =
  (fun t => match command with
            | command_function => ga_ready (name t)
            | command_name c => ga_command (name t +:+ "." +:+ c) args
            end) <$> ts.
Proof. reflexivity. Qed.

(** X15. The shuffle does not change whom the proxies reach. A proxy over
    the shuffled trackers makes the calls of a proxy over the original
    trackers, in some order; the same holds after filtering. With the two
    trackers of the site, [gaAll] makes one call for "t0" and one for
    "testing", and [gaTest] makes exactly one call, for "testing". *)
Theorem proxies_reach_their_trackers (draw : nat -> nat) :
  (forall i, (draw i <= i)%nat) ->
  (forall ts command args,
      createGaProxy (shuffleArray draw ts) command args ≡ₚ
      createGaProxy ts command args) /\
  (forall ts command args,
      createGaProxy (filter is_test (shuffleArray draw ts)) command args ≡ₚ
      createGaProxy (filter is_test ts) command args) /\
  (forall c args,
      gaAll draw (command_name c) args ≡ₚ
      [ga_command ("t0." +:+ c) args; ga_command ("testing." +:+ c) args]) /\
  (forall c args,
      gaTest draw (command_name c) args = [ga_command ("testing." +:+ c) args]) /\
  gaTest draw command_function [] = [ga_ready "testing"].
Proof.
  intros Hdraw.
  assert (Hshuffle : forall ts : list tracker, shuffleArray draw ts ≡ₚ ts)
    by (intros ts; apply shuffle_from_Permutation).
  assert (Htest : TEST_TRACKERS draw =
                  [ {| name := "testing"; trackingId := "UA-21292978-3" |} ]).
  { unfold TEST_TRACKERS, ALL_TRACKERS, shuffleArray. simpl.
    pose proof (Hdraw 1%nat) as H1.
    destruct (draw 1%nat) as [|[|n]]; [reflexivity|reflexivity|lia]. }
  split; [|split; [|split; [|split]]].
  - intros ts command args. rewrite !createGaProxy_fmap, Hshuffle. reflexivity.
  - intros ts command args. rewrite !createGaProxy_fmap, Hshuffle. reflexivity.
  - intros c args. unfold gaAll, ALL_TRACKERS.
    rewrite createGaProxy_fmap, Hshuffle. reflexivity.
  - intros c args. unfold gaTest. rewrite Htest. reflexivity.
  - unfold gaTest. rewrite Htest. reflexivity.
Qed.

(** X16. [setDefaultDimensionValues] sets every custom dimension of the
    table to "(not set)" on every tracker, and does nothing else: its calls
    are exactly the commands "<tracker>.set" with a dimension and the
    sentinel, one for each pair of a dimension and a tracker. *)
Theorem every_dimension_gets_the_default (draw : nat -> nat) :
  (forall i, (draw i <= i)%nat) ->
  (forall call,
      call ∈ setDefaultDimensionValues draw <->
      exists t d, t ∈ trackers /\ d ∈ dimensions /\
        call = ga_command (name t +:+ ".set")
                 [VString (snd d); VString "(not set)"]) /\
  length (setDefaultDimensionValues draw) =
    (length dimensions * length trackers)%nat.
Proof.
  intros Hdraw.
  assert (Hall : ALL_TRACKERS draw ≡ₚ trackers) by apply shuffle_from_Permutation.
  split.
  - intros call. unfold setDefaultDimensionValues.
    rewrite list_elem_of_In, in_concat. split.
    + intros (calls & Hcalls & Hcall).
      apply in_map_iff in Hcalls as (d & <- & Hd).
      apply list_elem_of_In in Hcall. unfold gaAll in Hcall.
      rewrite createGaProxy_fmap in Hcall.
      apply list_elem_of_fmap in Hcall as (t & -> & Ht).
      rewrite Hall in Ht. exists t, d.
      repeat split; [exact Ht|apply list_elem_of_In, Hd].
    + intros (t & d & Ht & Hd & ->).
      exists (gaAll draw (command_name "set") [VString (snd d); VString NULL_VALUE]).
      split.
      * apply in_map_iff. exists d. split; [reflexivity|apply list_elem_of_In, Hd].
      * apply list_elem_of_In. unfold gaAll. rewrite createGaProxy_fmap.
        apply list_elem_of_fmap. exists t. split; [reflexivity|].
        rewrite Hall. exact Ht.
  - unfold setDefaultDimensionValues.
    assert (Hlen : forall ds : list (string * string),
      length (concat (map (fun d => gaAll draw (command_name "set")
                                      [VString (snd d); VString NULL_VALUE]) ds)) =
      (length ds * length trackers)%nat).
    { induction ds as [|d ds IH]; [reflexivity|].
      cbn [map concat]. rewrite length_app, IH.
      unfold gaAll at 1. rewrite createGaProxy_fmap, length_fmap, Hall.
      simpl. lia. }
    apply Hlen.
Qed.

End AnalyticsClaims.

Section DefinitionIndexFacts.

Import Analytics.

Lemma chars_append s t : chars (s +:+ t) = chars s ++ chars t.
Proof. induction s as [|c s IH]; simpl; [reflexivity|]. rewrite IH. reflexivity. Qed.

Lemma all_digits_spec s :
  all_digits s = true <-> s <> EmptyString /\ Grammar.digits (chars s).
Proof.
  unfold all_digits, Grammar.digits. destruct s as [|c s].
  - split; [discriminate|intros [H _]; congruence].
  - rewrite forallb_forall, List.Forall_forall. split.
    + intros H. split; [discriminate|exact H].
    + intros [_ H]. exact H.
Qed.

(** A string that does not end in a digit is not made of digits. *)
Lemma no_final_digit_not_digits s :
  s <> EmptyString -> no_final_digit s -> all_digits s = false.
Proof.
  intros Hne Hlast. apply not_true_is_false. intros H.
  apply all_digits_spec in H as [_ H]. unfold no_final_digit in Hlast.
  apply Forall_rev in H.
  destruct (rev (chars s)) as [|c l] eqn:Hrev.
  - apply (f_equal (@rev ascii)) in Hrev. rewrite rev_involutive in Hrev.
    destruct s; [congruence|discriminate Hrev].
  - inversion H; congruence.
Qed.

Lemma no_final_digit_tail c s :
  s <> EmptyString -> no_final_digit (String c s) -> no_final_digit s.
Proof.
  unfold no_final_digit. simpl. intros Hne.
  destruct (rev (chars s)) as [|d l] eqn:Hrev; [|simpl; auto].
  apply (f_equal (@rev ascii)) in Hrev. rewrite rev_involutive in Hrev.
  destruct s; [congruence|discriminate Hrev].
Qed.

Lemma exec_no_final_digit s : no_final_digit s -> exec_digits_at_end s = None.
Proof.
  induction s as [|c s IH]; intros Hlast; [reflexivity|].
  cbn [exec_digits_at_end].
  rewrite (no_final_digit_not_digits (String c s)) by (auto; discriminate).
  destruct s as [|d s]; [reflexivity|].
  apply IH, (no_final_digit_tail c); [discriminate|exact Hlast].
Qed.

Lemma exec_after_prefix prefix ds :
  no_final_digit prefix -> all_digits ds = true ->
  exec_digits_at_end (prefix +:+ ds) = Some ds.
Proof.
  intros Hlast Hds. induction prefix as [|c prefix IH].
  - destruct ds as [|d ds]; [discriminate Hds|].
    change (EmptyString +:+ String d ds) with (String d ds).
    cbn [exec_digits_at_end]. rewrite Hds. reflexivity.
  - change (String c prefix +:+ ds) with (String c (prefix +:+ ds)).
    cbn [exec_digits_at_end].
    replace (all_digits (String c (prefix +:+ ds))) with false.
    + destruct prefix as [|d prefix]; [apply IH; exact I|].
      apply IH, (no_final_digit_tail c); [discriminate|exact Hlast].
    + symmetry. apply not_true_is_false. intros H.
      apply all_digits_spec in H as [_ H].
      change (String c (prefix +:+ ds)) with (String c prefix +:+ ds) in H.
      rewrite chars_append in H. apply Forall_app in H as [H _].
      pose proof (no_final_digit_not_digits (String c prefix)
                    ltac:(discriminate) Hlast) as Hnot.
      assert (all_digits (String c prefix) = true)
        by (apply all_digits_spec; split; [discriminate|exact H]).
      congruence.
Qed.

(** X17. [getDefinitionIndex] returns the number spelled by the digits at
    the end of the definition ("dimension16" gives 16), and throws a
    [TypeError] when the definition does not end in a digit (the regular
    expression finds no match). *)
Theorem getDefinitionIndex_reads_final_digits :
  (forall prefix ds n,
      no_final_digit prefix -> spells ds n ->
      getDefinitionIndex (prefix +:+ ds) = Normal (of_Z n)) /\
  (forall definition,
      no_final_digit definition ->
      getDefinitionIndex definition = Throw TypeError).
Proof.
  split.
  - intros prefix ds n Hprefix (Hne & Hds & Hn). unfold getDefinitionIndex.
    rewrite exec_after_prefix by (auto; apply all_digits_spec; auto).
    cbn [JS.to_number]. rewrite (StringToNumber_digits ds Hne Hds), Hn. reflexivity.
  - intros definition Hlast. unfold getDefinitionIndex.
    rewrite (exec_no_final_digit definition Hlast). reflexivity.
Qed.

End DefinitionIndexFacts.

(* ===================================================================== *)
(** * The events of one update *)
(* ===================================================================== *)

(** X18. All the events one message gives rise to carry the same value and
    the same label: the "sw-update" event, "sw-update-notify", and the
    events the Reload and dismiss callbacks of the notification send
    later. *)
Theorem events_of_one_update_agree NULL_VALUE initialSWState now data x y :
  In x (flat_map sent_events (effects (onUpdateMessage NULL_VALUE initialSWState now data))) ->
  In y (flat_map sent_events (effects (onUpdateMessage NULL_VALUE initialSWState now data))) ->
  x = y.
Proof.
  unfold onUpdateMessage.
  destruct (JS.get data "type") as [type|[]]; simpl; [|contradiction].
  destruct (strict_equals type "UPDATE_AVAILABLE"); simpl; [|contradiction].
  destruct (JS.get data "payload") as [payload|[]]; simpl; [|contradiction].
  destruct (processMetadata_returns now payload) as [r ->]. simpl.
  destruct (shouldNotifyUser initialSWState r); simpl; intros Hx Hy;
    repeat (destruct Hx as [Hx|Hx]; [|try contradiction]);
    repeat (destruct Hy as [Hy|Hy]; [|try contradiction]);
    congruence.
Qed.

(* ===================================================================== *)
(** * The further statements at concrete inputs *)
(* ===================================================================== *)

Lemma timely_reply_witness :
  JS.get (versionMetadata "1.2.3" (of_Z 1000)) "version" = Normal (VString "1.2.3") /\
  dimension_sets "dimension1"
    (performed (steps "(not set)" "dimension1"
       (setSiteVersionOrTimeout "(not set)" "dimension1" "controlled")
       [reply (versionMetadata "1.2.3" (of_Z 1000)); timer_fired])) =
  [ga_set "dimension1" (VString "1.2.3")].
Proof.
  split; [reflexivity|].
  apply (timely_reply_decides_site_version "(not set)" "dimension1"
           (versionMetadata "1.2.3" (of_Z 1000)) (VString "1.2.3") [timer_fired]).
  reflexivity.
Defined.

Lemma null_reply_witness :
  dimension_sets "dimension1"
    (performed (steps "(not set)" "dimension1"
       (setSiteVersionOrTimeout "(not set)" "dimension1" "controlled")
       [reply VNull; timer_fired])) = [].
Proof.
  apply (null_reply_leaves_site_version_unset "(not set)" "dimension1" VNull [timer_fired]).
  left. reflexivity.
Defined.

Lemma no_cache_hit_witness :
  "supported"%string <> "controlled"%string /\
  performed (navigation_steps "(not set)" "dimension2" sample_number_to_string
               (setNavigationCacheOrTimeout "dimension2" "supported" sample_number_to_string)
               [worker_message (sampleReport (VObject {[ "cacheHit" := VBool true ]}));
                navigation_timer_fired]) =
  [ga_set "dimension2" (VString "false")].
Proof.
  split; [discriminate|].
  apply (uncontrolled_page_is_no_cache_hit "(not set)" "dimension2" "supported").
  discriminate.
Defined.

Lemma first_report_witness :
  NAVIGATION_REPORT (sampleReport (VObject {[ "cacheHit" := VBool true ]}))
                    (VObject {[ "cacheHit" := VBool true ]}) /\
  dimension_sets "dimension2"
    (performed (navigation_steps "(not set)" "dimension2" sample_number_to_string
       (setNavigationCacheOrTimeout "dimension2" "controlled" sample_number_to_string)
       (map worker_message [sampleUpdate "4.1.0" "5.0.0"] ++
        worker_message (sampleReport (VObject {[ "cacheHit" := VBool true ]})) ::
        [navigation_timer_fired]))) =
  [ga_set "dimension2" (VString "true")].
Proof.
  assert (H : NAVIGATION_REPORT (sampleReport (VObject {[ "cacheHit" := VBool true ]}))
                                (VObject {[ "cacheHit" := VBool true ]}))
    by (split; reflexivity).
  split; [exact H|].
  apply (first_report_decides_cache_hit "(not set)" "dimension2" sample_number_to_string
           [sampleUpdate "4.1.0" "5.0.0"]
           (sampleReport (VObject {[ "cacheHit" := VBool true ]}))
           (VObject {[ "cacheHit" := VBool true ]})
           (VBool true) "true" [navigation_timer_fired]).
  - repeat constructor.
  - exact H.
  - reflexivity.
  - reflexivity.
Defined.

Lemma empty_report_witness :
  NAVIGATION_REPORT (sampleReport VNull) VNull /\
  dimension_sets "dimension2"
    (performed (navigation_steps "(not set)" "dimension2" sample_number_to_string
       (setNavigationCacheOrTimeout "dimension2" "controlled" sample_number_to_string)
       (map worker_message [] ++ worker_message (sampleReport VNull) ::
        [navigation_timer_fired]))) = [].
Proof.
  assert (H : NAVIGATION_REPORT (sampleReport VNull) VNull) by (split; reflexivity).
  split; [exact H|].
  apply (empty_report_leaves_cache_hit_unset "(not set)" "dimension2"
           sample_number_to_string [] (sampleReport VNull) VNull [navigation_timer_fired]).
  - constructor.
  - exact H.
  - left. reflexivity.
Defined.

Lemma late_report_witness :
  dimension_sets "dimension2"
    (performed (navigation_steps "(not set)" "dimension2" sample_number_to_string
       (setNavigationCacheOrTimeout "dimension2" "controlled" sample_number_to_string)
       (map worker_message [sampleUpdate "4.1.0" "5.0.0"] ++ navigation_timer_fired ::
        [worker_message (sampleReport (VObject {[ "cacheHit" := VBool true ]}))]))) =
  [ga_set "dimension2" (VString "(not set)")].
Proof.
  apply (late_report_is_discarded "(not set)" "dimension2" sample_number_to_string
           [sampleUpdate "4.1.0" "5.0.0"]).
  repeat constructor.
Defined.

Lemma well_formed_witness :
  well_formed (updatePayload (versionMetadata "4.1.0" (of_Z 1000))
                             (versionMetadata "4.2.0" (of_Z 2000))) /\
  ~ well_formed (updatePayload (VObject {[ "version" := VNumber (of_Z 3) ]})
                               (versionMetadata "4.2.0" (of_Z 2000))).
Proof.
  split.
  - apply (proj1 (processMetadata_processes_exactly_the_well_formed 5000 _)).
    eexists. vm_compute. reflexivity.
  - intros H.
    apply (proj2 (processMetadata_processes_exactly_the_well_formed 5000 _)) in H.
    destruct H as [m H]. vm_compute in H. discriminate H.
Defined.

Lemma update_without_new_version_witness :
  notifications
    (effects (onUpdateMessage "(not set)" "controlled" 5000
       (updateMessage (updatePayload (versionMetadata "4.1.0" (of_Z 1000))
                                     (VObject {[ "buildTime" := VNumber (of_Z 2000) ]}))))) <> [].
Proof.
  destruct (update_without_new_version_is_notified "(not set)" 5000
    (updateMessage (updatePayload (versionMetadata "4.1.0" (of_Z 1000))
                                  (VObject {[ "buildTime" := VNumber (of_Z 2000) ]})))
    (updatePayload (versionMetadata "4.1.0" (of_Z 1000))
                   (VObject {[ "buildTime" := VNumber (of_Z 2000) ]}))
    {| oldVersion := "4.1.0"; oldMajorVersion := of_Z 4;
       newVersion := ""; newMajorVersion := zero;
       timeSinceNewVersionDeployed := of_Z 3000 |})
    as (_ & -> & _).
  - split; reflexivity.
  - vm_compute. reflexivity.
  - reflexivity.
  - discriminate.
Defined.

Lemma notified_iff_witness :
  notifications (effects (onUpdateMessage "(not set)" "controlled" 5000
                            (sampleUpdate "9.0.0" "10.0.0"))) <> [] <->
  10 = 0 \/ 9 < 10.
Proof.
  apply (notified_iff_major_version_grows "(not set)" 5000 (sampleUpdate "9.0.0" "10.0.0")
           (updatePayload (versionMetadata "9.0.0" (of_Z 1000))
                          (versionMetadata "10.0.0" (of_Z 2000)))
           {| oldVersion := "9.0.0"; oldMajorVersion := of_Z 9;
              newVersion := "10.0.0"; newMajorVersion := of_Z 10;
              timeSinceNewVersionDeployed := of_Z 3000 |}
           "9" 9 "10" 10).
  - split; reflexivity.
  - vm_compute. reflexivity.
  - split; [reflexivity|]. right. exists "0.0"%string. reflexivity.
  - split; [discriminate|]. split; [repeat constructor|reflexivity].
  - split; [reflexivity|]. right. exists "0.0"%string. reflexivity.
  - split; [discriminate|]. split; [repeat constructor|reflexivity].
  - reflexivity.
  - reflexivity.
Defined.

Lemma cache_update_witness :
  CACHE_UPDATED (sampleCacheUpdate (VObject {[ "updatedURL" := VString "/articles/" ]}))
                (VObject {[ "updatedURL" := VString "/articles/" ]}) /\
  onCacheMessage (sampleCacheUpdate (VObject {[ "updatedURL" := VString "/articles/" ]})) =
    Normal [loadPage (VString "/articles/");
            ga_send_labelled "Service Worker" "cache-update" (VString "/articles/")].
Proof.
  assert (H : CACHE_UPDATED
                (sampleCacheUpdate (VObject {[ "updatedURL" := VString "/articles/" ]}))
                (VObject {[ "updatedURL" := VString "/articles/" ]}))
    by (split; reflexivity).
  split; [exact H|].
  apply (proj1 cache_update_loads_then_reports _ _ _ H). reflexivity.
Defined.

Lemma exclusive_listeners_witness :
  effects (onUpdateMessage "(not set)" "controlled" 5000
             (sampleCacheUpdate (VObject {[ "updatedURL" := VString "/articles/" ]}))) = [].
Proof.
  eapply (proj1 (message_listeners_are_exclusive "(not set)" "controlled" 5000
            (sampleCacheUpdate (VObject {[ "updatedURL" := VString "/articles/" ]})))).
  - reflexivity.
  - discriminate.
Defined.

Lemma shuffleArray_witness :
  (forall i : nat, (i <= i)%nat) /\
  Analytics.shuffleArray (fun i => i) [1; 2; 3] ≡ₚ [1; 2; 3].
Proof.
  split; [intros i; lia|].
  apply (shuffleArray_permutes (fun i => i) [1; 2; 3]). intros i. lia.
Defined.

Lemma proxies_witness :
  Analytics.gaTest (fun _ => 0%nat) (Analytics.command_name "send") [VString "pageview"] =
  [Analytics.ga_command "testing.send" [VString "pageview"]].
Proof.
  apply (proxies_reach_their_trackers (fun _ => 0%nat)). intros i. lia.
Defined.

Lemma default_dimensions_witness :
  length (Analytics.setDefaultDimensionValues (fun _ => 0%nat)) = 32%nat.
Proof.
  apply (every_dimension_gets_the_default (fun _ => 0%nat)). intros i. lia.
Defined.

Lemma getDefinitionIndex_witness :
  no_final_digit "dimension" /\ spells "16" 16 /\
  Analytics.getDefinitionIndex "dimension16" = Normal (of_Z 16).
Proof.
  assert (H1 : no_final_digit "dimension") by reflexivity.
  assert (H2 : spells "16" 16).
  { split; [discriminate|]. split; [repeat constructor|reflexivity]. }
  split; [exact H1|]. split; [exact H2|].
  apply (proj1 getDefinitionIndex_reads_final_digits "dimension"%string "16"%string 16 H1 H2).
Defined.

Lemma events_agree_witness :
  let sent := flat_map sent_events
                (effects (onUpdateMessage "(not set)" "controlled" 5000
                            (sampleUpdate "4.1.0" "5.0.0"))) in
  length sent = 4%nat /\
  nth 0 sent (zero, EmptyString) = nth 3 sent (zero, EmptyString).
Proof.
  split; [reflexivity|].
  apply (events_of_one_update_agree "(not set)" "controlled" 5000
           (sampleUpdate "4.1.0" "5.0.0")).
  - left. reflexivity.
  - right. right. right. left. reflexivity.
Defined.

(* ===================================================================== *)
(** * The event that reports an update *)
(* ===================================================================== *)

Section UpdateReport.

Lemma processMetadata_well_formed now payload :
  well_formed payload -> exists m, processMetadata now payload = Normal (Processed m).
Proof.
  intros (om & nm & btv & bt & Hom & Hnm & Hok_old & Hok_new & Hbtv & Hbt).
  destruct (version_ok_string om Hok_old) as (ovv & ov & Hov & Hovs).
  destruct (version_ok_string nm Hok_new) as (nvv & nv & Hnv & Hnvs).
  destruct (majorVersion_returns ov) as [omaj Homaj].
  destruct (majorVersion_returns nv) as [nmaj Hnmaj].
  eexists. unfold processMetadata.
  replace (match payload with VUndefined => VObject ∅ | _ => payload end)
    with payload by (destruct payload; try reflexivity; discriminate Hom).
  unfold processMetadata_try. rewrite Hom. cbn [mbind completion_bind].
  rewrite Hnm. cbn [mbind completion_bind].
  rewrite Hov. cbn [fmap completion_fmap mbind completion_bind].
  rewrite Hnv. cbn [fmap completion_fmap mbind completion_bind].
  rewrite Hovs. cbn [JS.split_receiver mbind completion_bind].
  rewrite Homaj. cbn [mbind completion_bind].
  rewrite Hnvs. cbn [JS.split_receiver mbind completion_bind].
  rewrite Hnmaj. cbn [mbind completion_bind].
  rewrite Hbtv. cbn [mbind completion_bind].
  rewrite Hbt. reflexivity.
Qed.

Lemma processMetadata_processed_well_formed now payload m :
  processMetadata now payload = Normal (Processed m) -> well_formed payload.
Proof.
  intros Hm.
  destruct (processMetadata_processed now payload m Hm)
    as (om & nm & ovv & nvv & btv & bt & Hom & Hnm & Hov & Hnv & Hovs & Hnvs
        & _ & _ & Hbtv & Hbt & _).
  exists om, nm, btv, bt. repeat split; try assumption.
  - eapply or_string_version_ok; eassumption.
  - eapply or_string_version_ok; eassumption.
Qed.

(** What a payload with a build time and both versions is processed to. *)
Lemma processMetadata_reads now payload buildTime old new :
  built_at payload buildTime ->
  version_in payload "oldMetadata" old ->
  version_in payload "newMetadata" new ->
  exists m,
    processMetadata now payload = Normal (Processed m) /\
    oldVersion m = old /\ newVersion m = new /\
    timeSinceNewVersionDeployed m = JSNumber.sub (of_Z now) buildTime.
Proof.
  intros (nm & btv & Hnm & Hbtv & Hbt) (om & ovv & Hom & Hov & Hovs)
    (nm' & nvv & Hnm' & Hnv & Hnvs).
  rewrite Hnm in Hnm'. injection Hnm' as <-.
  destruct (processMetadata_well_formed now payload) as [m Hm].
  { exists om, nm, btv, buildTime. repeat split; try assumption.
    - eapply or_string_version_ok; eassumption.
    - eapply or_string_version_ok; eassumption. }
  exists m. split; [exact Hm|].
  destruct (processMetadata_processed now payload m Hm)
    as (om' & nm' & ovv' & nvv' & btv' & bt' & Hom' & Hnm' & Hov' & Hnv' & Hovs' & Hnvs'
        & _ & _ & Hbtv' & Hbt' & Htime).
  rewrite Hom in Hom'. injection Hom' as <-.
  rewrite Hnm in Hnm'. injection Hnm' as <-.
  rewrite Hov in Hov'. injection Hov' as <-.
  rewrite Hnv in Hnv'. injection Hnv' as <-.
  rewrite Hbtv in Hbtv'. injection Hbtv' as <-.
  rewrite Hbt in Hbt'. injection Hbt' as <-.
  rewrite Hovs in Hovs'. injection Hovs' as <-.
  rewrite Hnvs in Hnvs'. injection Hnvs' as <-.
  repeat split. exact Htime.
Qed.

Lemma sub_zero now : 0 < now < 2 ^ 53 -> JSNumber.sub (of_Z now) zero = of_Z now.
Proof.
  intros [H0 H]. destruct now as [|p|p]; try lia.
  destruct (of_Z_pos p H) as (m & -> & _). reflexivity.
Qed.

(** C6, as amended. Every [UPDATE_AVAILABLE] message is reported by exactly
    one "sw-update" event, whether or not the user is notified. For a
    payload that carries a build time and both versions, the value is
    [Date.now()] minus the build time converted to a number, or 0 when that
    difference is [NaN] or zero, and the label is "old => new", with
    [NULL_VALUE] in place of an empty old version and as the whole label
    when the new version is empty. The value is 0 when the new metadata has
    no build time, and 0 with the label [NULL_VALUE] when the payload cannot
    be processed. A build time of [null] converts to 0, so the value is then
    [Date.now()] itself. *)
Theorem update_is_always_reported NULL_VALUE initialSWState now data payload :
  UPDATE_AVAILABLE data payload ->
  exists eventValue eventLabel,
    events "sw-update" (effects (onUpdateMessage NULL_VALUE initialSWState now data)) =
      [ga_send_event "Service Worker" "sw-update" eventValue eventLabel] /\
    (forall buildTime old new,
        built_at payload buildTime ->
        version_in payload "oldMetadata" old ->
        version_in payload "newMetadata" new ->
        let elapsed := JSNumber.sub (of_Z now) buildTime in
        (JSNumber.truthy elapsed = true -> eventValue = elapsed) /\
        (JSNumber.truthy elapsed = false -> eventValue = zero) /\
        (new <> "" -> old <> "" -> eventLabel = old +:+ " => " +:+ new)%string /\
        (new <> "" -> old = "" -> eventLabel = NULL_VALUE +:+ " => " +:+ new)%string /\
        (new = "" -> eventLabel = NULL_VALUE)%string) /\
    (forall newMetadata,
        JS.get payload "newMetadata" = Normal newMetadata ->
        JS.get newMetadata "buildTime" = Normal VUndefined ->
        eventValue = zero) /\
    (forall newMetadata old new,
        JS.get payload "newMetadata" = Normal newMetadata ->
        JS.get newMetadata "buildTime" = Normal VNull ->
        version_in payload "oldMetadata" old ->
        version_in payload "newMetadata" new ->
        0 < now < 2 ^ 53 ->
        eventValue = of_Z now) /\
    (~ well_formed payload -> eventValue = zero /\ eventLabel = NULL_VALUE).
Proof.
  intros Hdata. destruct (processMetadata_returns now payload) as [r Hr].
  exists (Var.or_zero (destructured timeSinceNewVersionDeployed r)),
    (eventLabel NULL_VALUE (destructured oldVersion r) (destructured newVersion r)).
  assert (Hread : forall buildTime old new,
    built_at payload buildTime ->
    version_in payload "oldMetadata" old ->
    version_in payload "newMetadata" new ->
    Var.or_zero (destructured timeSinceNewVersionDeployed r) =
      (if JSNumber.truthy (JSNumber.sub (of_Z now) buildTime)
       then JSNumber.sub (of_Z now) buildTime else zero) /\
    eventLabel NULL_VALUE (destructured oldVersion r) (destructured newVersion r) =
      eventLabel NULL_VALUE (Some old) (Some new)).
  { intros bt old new Hbt Hold Hnew.
    destruct (processMetadata_reads now payload bt old new Hbt Hold Hnew)
      as (m & Hm & <- & <- & Htime).
    rewrite Hr in Hm. injection Hm as ->. simpl. rewrite Htime. split; reflexivity. }
  split; [|split; [|split; [|split]]].
  - rewrite (onUpdateMessage_effects NULL_VALUE initialSWState now data payload r Hdata Hr).
    destruct (shouldNotifyUser initialSWState r); reflexivity.
  - intros bt old new Hbt Hold Hnew elapsed.
    destruct (Hread bt old new Hbt Hold Hnew) as [-> ->]. fold elapsed.
    unfold eventLabel, Var.nonempty. repeat split.
    + intros ->. reflexivity.
    + intros ->. reflexivity.
    + intros Hn Ho. apply String.eqb_neq in Hn, Ho. rewrite Hn, Ho. reflexivity.
    + intros Hn ->. apply String.eqb_neq in Hn. rewrite Hn. reflexivity.
    + intros ->. reflexivity.
  - intros nm Hnm Hbtv. destruct r as [m|error]; [|reflexivity].
    destruct (processMetadata_processed now payload m Hr)
      as (om' & nm' & ovv' & nvv' & btv' & bt' & _ & Hnm' & _ & _ & _ & _
          & _ & _ & Hbtv' & Hbt' & Htime).
    rewrite Hnm in Hnm'. injection Hnm' as <-.
    rewrite Hbtv in Hbtv'. injection Hbtv' as <-.
    injection Hbt' as <-. simpl. rewrite Htime. destruct (of_Z now); reflexivity.
  - intros nm old new Hnm Hbtv Hold Hnew Hnow.
    assert (Hbt : built_at payload zero) by (exists nm, VNull; auto).
    destruct (Hread zero old new Hbt Hold Hnew) as [-> _].
    rewrite (sub_zero now Hnow), of_Z_truthy by lia.
    destruct (Z.eqb_spec now 0); [lia|reflexivity].
  - intros Hbad. destruct r as [m|error]; [|split; reflexivity].
    exfalso. apply Hbad. eapply processMetadata_processed_well_formed, Hr.
Qed.

(** C6 as stated fails: when the new metadata carries [null] as its build
    time, the time the new version was built is unknown, yet the value of
    the event is [Date.now()], not 0. *)
Lemma null_build_time_reports_now :
  ~ (forall NULL_VALUE initialSWState now data payload newMetadata eventValue eventLabel,
        UPDATE_AVAILABLE data payload ->
        JS.get payload "newMetadata" = Normal newMetadata ->
        JS.get newMetadata "buildTime" = Normal VNull \/
        JS.get newMetadata "buildTime" = Normal VUndefined ->
        events "sw-update" (effects (onUpdateMessage NULL_VALUE initialSWState now data)) =
          [ga_send_event "Service Worker" "sw-update" eventValue eventLabel] ->
        eventValue = zero).
Proof.
  intros H.
  assert (Hzero : of_Z 5000 = zero).
  { apply (H "(not set)"%string "controlled"%string 5000
             (updateMessage
                (updatePayload (versionMetadata "4.1.0" (of_Z 1000))
                   (VObject {[ "version" := VString "4.2.0"; "buildTime" := VNull ]})))
             (updatePayload (versionMetadata "4.1.0" (of_Z 1000))
                (VObject {[ "version" := VString "4.2.0"; "buildTime" := VNull ]}))
             (VObject {[ "version" := VString "4.2.0"; "buildTime" := VNull ]})
             (of_Z 5000) "4.1.0 => 4.2.0"%string).
    - split; reflexivity.
    - reflexivity.
    - left. reflexivity.
    - vm_compute. reflexivity. }
  vm_compute in Hzero. discriminate Hzero.
Qed.

Lemma update_is_always_reported_witness :
  UPDATE_AVAILABLE (sampleUpdate "4.1.0" "4.2.0")
    (updatePayload (versionMetadata "4.1.0" (of_Z 1000))
                   (versionMetadata "4.2.0" (of_Z 2000))) /\
  events "sw-update"
    (effects (onUpdateMessage "(not set)" "controlled" 5000 (sampleUpdate "4.1.0" "4.2.0"))) =
  [ga_send_event "Service Worker" "sw-update" (of_Z 3000) "4.1.0 => 4.2.0"].
Proof.
  assert (H : UPDATE_AVAILABLE (sampleUpdate "4.1.0" "4.2.0")
                (updatePayload (versionMetadata "4.1.0" (of_Z 1000))
                               (versionMetadata "4.2.0" (of_Z 2000))))
    by (split; reflexivity).
  split; [exact H|].
  destruct (update_is_always_reported "(not set)" "controlled" 5000 _ _ H)
    as (v & l & -> & Hread & _).
  destruct (Hread (of_Z 2000) "4.1.0"%string "4.2.0"%string) as (Hv & _ & Hl & _).
  - exists (versionMetadata "4.2.0" (of_Z 2000)), (VNumber (of_Z 2000)).
    repeat split; reflexivity.
  - exists (versionMetadata "4.1.0" (of_Z 1000)), (VString "4.1.0").
    repeat split; reflexivity.
  - exists (versionMetadata "4.2.0" (of_Z 2000)), (VString "4.2.0").
    repeat split; reflexivity.
  - rewrite (Hv eq_refl), (Hl ltac:(discriminate) ltac:(discriminate)). reflexivity.
Defined.

End UpdateReport.
